(** * The Sophos Central API client: token cache, tenant discovery, error mapping

    A shallow embedding of [SophosClient] (client.ts) and of the parts of
    config.ts and types.ts it relies on.  The client is asynchronous code
    that mutates four private fields and talks to the network through
    [fetch]; here it becomes a state-and-exception monad over the client's
    fields and a [World] (the clock read by [Date.now()] and the list of
    requests handed to [fetch]).  What the remote side answers is a
    parameter, the [Platform]. *)

From Stdlib Require Import ZArith List String Ascii Bool Lia DecimalString.
From Stdlib Require Import DecimalPos DecimalZ.
Import ListNotations.
Set Warnings "-register-all".
Local Open Scope string_scope.
Local Open Scope Z_scope.

(* ====================================================================== *)
(** ** JavaScript values the client depends on *)
(* ====================================================================== *)

Module Js.

(** [if (v)] for a value of type [string | undefined]: the empty string
    and [undefined] are falsy. *)
Definition truthy_string (v : option string) : bool :=
  match v with
  | Some s => negb (s =? "")%string
  | None => false
  end.

(** [if (v)] for a value of type [number | undefined] (no NaN in the
    model): zero and [undefined] are falsy. *)
Definition truthy_number (v : option Z) : bool :=
  match v with
  | Some n => negb (n =? 0)
  | None => false
  end.

(** [a || b] where [a : string | undefined] and [b : string]. *)
Definition or_string (a : option string) (b : string) : string :=
  match a with
  | Some s => if (s =? "")%string then b else s
  | None => b
  end.

(** A value of type [string | undefined] inside a template literal. *)
Definition interpolate (v : option string) : string :=
  match v with
  | Some s => s
  | None => "undefined"
  end.

(** [String(n)] for an integral number. *)
Definition String_of_number (n : Z) : string :=
  NilZero.string_of_int (Z.to_int n).

(** The result of [parseInt]: an integer or NaN. *)
Inductive number : Type :=
| NaN
| Num (n : Z).

(** StrWhiteSpaceChar, restricted to the code units a header value can
    hold (0..255): TAB, LF, VT, FF, CR, SP and NBSP. *)
Definition is_white_space (c : ascii) : bool :=
  let n := Z.of_N (N_of_ascii c) in
  ((9 <=? n) && (n <=? 13)) || (n =? 32) || (n =? 160).

Fixpoint trim_start (s : string) : string :=
  match s with
  | String c r => if is_white_space c then trim_start r else s
  | EmptyString => s
  end.

Definition digit_value (c : ascii) : option Z :=
  let n := Z.of_N (N_of_ascii c) in
  if (48 <=? n) && (n <=? 57) then Some (n - 48) else None.

(** The longest prefix of decimal digits, as a number; [acc] is [None]
    until a first digit has been read. *)
Fixpoint leading_digits (s : string) (acc : option Z) : option Z :=
  match s with
  | String c r =>
      match digit_value c with
      | Some d =>
          leading_digits r
            (Some (10 * match acc with Some a => a | None => 0 end + d))
      | None => acc
      end
  | EmptyString => acc
  end.

(** [parseInt(s, 10)]: leading white space is skipped, one sign is
    accepted, then the decimal digits up to the first other character are
    read; no digit at all gives NaN.  (Integers are exact here: this is the
    result of the code for digits that denote a number of magnitude at
    most 2^53; beyond, the code returns the nearest double, and what is
    stated of larger numbers is not stated of the code.) *)
Definition parseInt (s : string) : number :=
  let s1 := trim_start s in
  let '(sign, s2) :=
    match s1 with
    | String "-"%char r => (-1, r)
    | String "+"%char r => (1, r)
    | _ => (1, s1)
    end in
  match leading_digits s2 None with
  | Some v => Num (sign * v)
  | None => NaN
  end.

End Js.

(** A parsed JSON value ([response.json()] where the client does not cast
    it to a declared interface).  Numbers are integers; the members of an
    object are its own properties, each key once. *)
Inductive Json : Type :=
| JNull
| JBool (b : bool)
| JNumber (n : Z)
| JString (s : string)
| JArray (items : list Json)
| JObject (members : list (string * Json)).

Module JsonValue.

(** Truthiness of a JSON value. *)
Definition truthy (j : Json) : bool :=
  match j with
  | JNull => false
  | JBool b => b
  | JNumber n => negb (n =? 0)
  | JString s => negb (s =? "")%string
  | JArray _ | JObject _ => true
  end.

Fixpoint lookup (k : string) (ms : list (string * Json)) : option Json :=
  match ms with
  | [] => None
  | (k', v) :: r => if (k' =? k)%string then Some v else lookup k r
  end.

(** [j.k]: the property of an object, [undefined] ([None]) elsewhere.
    (On [null] the access throws; the only caller swallows that
    exception and carries on as if the property were missing.) *)
Definition member (j : Json) (k : string) : option Json :=
  match j with
  | JObject ms => lookup k ms
  | _ => None
  end.

Fixpoint join (sep : string) (l : list string) : string :=
  match l with
  | [] => ""
  | [x] => x
  | x :: r => x ++ sep ++ join sep r
  end.

(** A JSON value inside a template literal. *)
Fixpoint to_String (j : Json) : string :=
  match j with
  | JNull => "null"
  | JBool true => "true"
  | JBool false => "false"
  | JNumber n => Js.String_of_number n
  | JString s => s
  | JArray l =>
      join ","
        (map (fun x => match x with JNull => "" | _ => to_String x end) l)
  | JObject _ => "[object Object]"
  end.

End JsonValue.

(* ====================================================================== *)
(** ** Error classes *)
(* ====================================================================== *)

Inductive ErrorClass : Type :=
| ClientErrorClass
| AuthErrorClass
| RateLimitErrorClass.

(** What a [throw] carries: an instance of one of the three client classes
    with its fields, or an [Error] made by the platform (the rejection of
    [fetch], a [SyntaxError] of [response.json()], a [TypeError] of
    [new URL]), kept by its [name] and [message]. *)
Inductive Thrown : Type :=
| Sophos (class : ErrorClass) (message : string)
         (statusCode : option Z) (retryAfter : option Js.number)
| Native (name message : string).

(** [new SophosClientError(message, statusCode?)] *)
Definition SophosClientError (message : string) (statusCode : option Z) : Thrown :=
  Sophos ClientErrorClass message statusCode None.

(** [new SophosAuthError(message, statusCode?)] *)
Definition SophosAuthError (message : string) (statusCode : option Z) : Thrown :=
  Sophos AuthErrorClass message statusCode None.

(** [new SophosRateLimitError(message, retryAfter?)]: the status is fixed. *)
Definition SophosRateLimitError (message : string) (retryAfter : option Js.number) : Thrown :=
  Sophos RateLimitErrorClass message (Some 429) retryAfter.

(** [x instanceof SophosClientError]: the two other classes extend it. *)
Definition instanceof_SophosClientError (x : Thrown) : bool :=
  match x with
  | Sophos _ _ _ _ => true
  | Native _ _ => false
  end.

Definition instanceof_SophosAuthError (x : Thrown) : bool :=
  match x with
  | Sophos AuthErrorClass _ _ _ => true
  | _ => false
  end.

Definition instanceof_SophosRateLimitError (x : Thrown) : bool :=
  match x with
  | Sophos RateLimitErrorClass _ _ _ => true
  | _ => false
  end.

Definition error_name (x : Thrown) : string :=
  match x with
  | Sophos ClientErrorClass _ _ _ => "SophosClientError"
  | Sophos AuthErrorClass _ _ _ => "SophosAuthError"
  | Sophos RateLimitErrorClass _ _ _ => "SophosRateLimitError"
  | Native n _ => n
  end.

Definition error_statusCode (x : Thrown) : option Z :=
  match x with
  | Sophos _ _ sc _ => sc
  | Native _ _ => None
  end.

Definition error_retryAfter (x : Thrown) : option Js.number :=
  match x with
  | Sophos _ _ _ ra => ra
  | Native _ _ => None
  end.

(* ====================================================================== *)
(** ** Configuration and declared response types *)
(* ====================================================================== *)

Module SophosConfig.
Record t : Type := {
  clientId : string;
  clientSecret : string;
  tenantId : option string;
  apiUrl : option string;
  authUrl : string;
  globalUrl : string;
  timeout : Z
}.
End SophosConfig.

Module SophosTokenResponse.
Record t : Type := {
  access_token : string;
  token_type : string;
  expires_in : Z;
  refresh_token : option string;
  errorCode : option string;
  message : option string
}.
End SophosTokenResponse.

Module SophosWhoamiResponse.
Inductive IdType : Type := tenant | partner | organization.
Record ApiHosts : Type := {
  global : string;
  dataRegion : string
}.
Record t : Type := {
  id : string;
  idType : IdType;
  apiHosts : ApiHosts
}.
End SophosWhoamiResponse.

(* ====================================================================== *)
(** ** Requests, responses and the world *)
(* ====================================================================== *)

(** What is sent as a body: nothing, the form fields of a
    [URLSearchParams], or the value given to [JSON.stringify]. *)
Inductive Payload : Type :=
| NoBody
| FormBody (fields : list (string * string))
| JsonBody (value : Json).

(** A URL: the text given to [fetch] or to [new URL], and the pairs the
    client has put into [url.searchParams]. *)
Record Url : Type := {
  href : string;
  searchParams : list (string * string)
}.

Record Request : Type := {
  url : Url;
  method : string;
  headers : list (string * string);
  body : Payload
}.

(** A [Response] whose JSON body has type [B].  [headers_get] is
    [response.headers.get]; [text] and [json] are [None] when reading the
    body as text, or parsing it as JSON, fails.  Where [B] is an interface
    the client casts the body to, [json] gives a body of that shape; a
    body that is valid JSON of another shape is not among the responses of
    the model. *)
Record Response (B : Type) : Type := {
  status : Z;
  statusText : string;
  headers_get : string -> option string;
  text : option string;
  json : option B
}.
Arguments status {B} _.
Arguments statusText {B} _.
Arguments headers_get {B} _ _.
Arguments text {B} _.
Arguments json {B} _.

(** [response.ok] *)
Definition ok {B : Type} (r : Response B) : bool :=
  (200 <=? status r) && (status r <=? 299).

(** How an awaited [fetch] ends: rejected with an [Error] (its [name] and
    [message]: "AbortError" when the abort signal fired, "TypeError" for a
    network failure), or fulfilled with a response. *)
Inductive FetchResult (B : Type) : Type :=
| Rejected (name message : string)
| Responded (r : Response B).
Arguments Rejected {B} _ _.
Arguments Responded {B} _.

(** [fetch] is called at three places; the log keeps the place with the
    request. *)
Inductive Call : Type :=
| TokenCall (rq : Request)
| WhoamiCall (rq : Request)
| ApiCall (rq : Request).

(** The clock ([Date.now()], milliseconds) and the calls made so far, the
    latest first. *)
Record World : Type := {
  clock : Z;
  wire : list Call
}.

(** The environment of the client.  Each endpoint tells, for a request and
    the world at the time of the call, how long the [await] takes and how
    it ends; the body of its response has the type the client casts it to.
    [URL_parses] tells whether [new URL(text)] accepts a text. *)
Record Platform : Type := {
  token_endpoint : Request -> World -> Z * FetchResult SophosTokenResponse.t;
  whoami_endpoint : Request -> World -> Z * FetchResult SophosWhoamiResponse.t;
  resource_api : Request -> World -> Z * FetchResult Json;
  URL_parses : string -> bool
}.

(* ====================================================================== *)
(** ** The client object and the monad of its methods *)
(* ====================================================================== *)

Record SophosClient : Type := {
  config : SophosConfig.t;
  accessToken : option string;
  tokenExpiresAt : option Z;
  dataRegionUrl : option string;
  tenantId : option string
}.

(** [new SophosClient(config)] *)
Definition constructor (cfg : SophosConfig.t) : SophosClient :=
  {| config := cfg;
     accessToken := None;
     tokenExpiresAt := None;
     dataRegionUrl := SophosConfig.apiUrl cfg;
     tenantId := SophosConfig.tenantId cfg |}.

Record Sys : Type := {
  this : SophosClient;
  world : World
}.

Inductive Completion (A : Type) : Type :=
| Return (a : A)
| Throw (x : Thrown).
Arguments Return {A} _.
Arguments Throw {A} _.

(** An asynchronous computation: it ends normally or by an exception, and
    the state changes made before a [throw] stay. *)
Definition Async (A : Type) : Type := Sys -> Completion A * Sys.

Definition ret {A : Type} (a : A) : Async A := fun s => (Return a, s).

Definition throw {A : Type} (x : Thrown) : Async A := fun s => (Throw x, s).

Definition bind {A B : Type} (c : Async A) (k : A -> Async B) : Async B :=
  fun s =>
    match c s with
    | (Return a, s') => k a s'
    | (Throw x, s') => (Throw x, s')
    end.

Declare Scope async_scope.
Delimit Scope async_scope with async.
Notation "x <- c ;; k" := (bind c (fun x => k))
  (at level 100, c at next level, right associativity) : async_scope.
Notation "c ;; k" := (bind c (fun _ => k))
  (at level 100, k at level 200, right associativity) : async_scope.
Local Open Scope async_scope.

Definition get_this : Async SophosClient := fun s => (Return (this s), s).

Definition Date_now : Async Z := fun s => (Return (clock (world s)), s).

Definition set_accessToken (v : option string) : Async unit :=
  fun s =>
    let c := this s in
    (Return tt,
     {| this := {| config := config c; accessToken := v;
                   tokenExpiresAt := tokenExpiresAt c;
                   dataRegionUrl := dataRegionUrl c; tenantId := tenantId c |};
        world := world s |}).

Definition set_tokenExpiresAt (v : option Z) : Async unit :=
  fun s =>
    let c := this s in
    (Return tt,
     {| this := {| config := config c; accessToken := accessToken c;
                   tokenExpiresAt := v;
                   dataRegionUrl := dataRegionUrl c; tenantId := tenantId c |};
        world := world s |}).

Definition set_dataRegionUrl (v : option string) : Async unit :=
  fun s =>
    let c := this s in
    (Return tt,
     {| this := {| config := config c; accessToken := accessToken c;
                   tokenExpiresAt := tokenExpiresAt c;
                   dataRegionUrl := v; tenantId := tenantId c |};
        world := world s |}).

Definition set_tenantId (v : option string) : Async unit :=
  fun s =>
    let c := this s in
    (Return tt,
     {| this := {| config := config c; accessToken := accessToken c;
                   tokenExpiresAt := tokenExpiresAt c;
                   dataRegionUrl := dataRegionUrl c; tenantId := v |};
        world := world s |}).

(** [await fetch(...)] at one of the three call sites: the call is logged,
    the clock moves on by the time the endpoint takes. *)
Definition fetch_with {B : Type}
    (endpoint : Request -> World -> Z * FetchResult B)
    (tag : Request -> Call) (rq : Request) : Async (FetchResult B) :=
  fun s =>
    let w := world s in
    let '(elapsed, outcome) := endpoint rq w in
    (Return outcome,
     {| this := this s;
        world := {| clock := clock w + elapsed; wire := tag rq :: wire w |} |}).

(** [await response.json()]; the message of the [SyntaxError] depends on
    the runtime, the model fixes one. *)
Definition response_json {B : Type} (r : Response B) : Async B :=
  match json r with
  | Some b => ret b
  | None => throw (Native "SyntaxError" "Unexpected token in JSON")
  end.

(** The values of a [params] record: [string | number | boolean]. *)
Inductive ParamValue : Type :=
| PString (s : string)
| PNumber (n : Z)
| PBoolean (b : bool).

(** [String(value)] *)
Definition String_of_param (v : ParamValue) : string :=
  match v with
  | PString s => s
  | PNumber n => Js.String_of_number n
  | PBoolean true => "true"
  | PBoolean false => "false"
  end.

(** [Object.entries(params)]: the keys in order, a missing value is
    [undefined]. *)
Definition Params : Type := list (string * option ParamValue).

(** [url.searchParams.set(key, value)]: the first pair with the key takes
    the value and the later ones go; without such a pair one is appended. *)
Fixpoint set_pair (key value : string) (l : list (string * string))
    : list (string * string) :=
  match l with
  | [] => [(key, value)]
  | (k, v) :: r =>
      if (k =? key)%string
      then (key, value) :: filter (fun kv => negb (fst kv =? key)%string) r
      else (k, v) :: set_pair key value r
  end.

Definition searchParams_set (key value : string) (u : Url) : Url :=
  {| href := href u; searchParams := set_pair key value (searchParams u) |}.

(** The test that opens [authenticate],
    [this.accessToken && this.tokenExpiresAt && Date.now() < this.tokenExpiresAt],
    with the token it lets through. *)
Definition cached_token (c : SophosClient) (now : Z) : option string :=
  match accessToken c, tokenExpiresAt c with
  | Some token, Some expiresAt =>
      if Js.truthy_string (Some token)
         && Js.truthy_number (Some expiresAt)
         && (now <? expiresAt)
      then Some token
      else None
  | _, _ => None
  end.

(** The request of the token exchange in [authenticate]: the
    client-credentials form posted to [config.authUrl]. *)
Definition token_request (cfg : SophosConfig.t) : Request :=
  {| url := {| href := SophosConfig.authUrl cfg; searchParams := [] |};
     method := "POST";
     headers := [("Content-Type", "application/x-www-form-urlencoded")];
     body := FormBody [("grant_type", "client_credentials");
                       ("client_id", SophosConfig.clientId cfg);
                       ("client_secret", SophosConfig.clientSecret cfg);
                       ("scope", "token")] |}.

(** The request of [discoverTenant]: a GET (the default of [fetch]) of
    [`${config.globalUrl}/whoami/v1`] with the bearer token. *)
Definition whoami_request (cfg : SophosConfig.t) (token : string) : Request :=
  {| url := {| href := SophosConfig.globalUrl cfg ++ "/whoami/v1"; searchParams := [] |};
     method := "GET";
     headers := [("Authorization", "Bearer " ++ token)];
     body := NoBody |}.

Section Client.

Variable P : Platform.

(* -------------------------------------------------------------------- *)
(** *** OAuth2 authentication *)

Definition authenticate : Async string :=
  c <- get_this ;;
  now <- Date_now ;;
  match cached_token c now with
  | Some token => ret token
  | None =>
    let cfg := config c in
    result <- fetch_with (token_endpoint P) TokenCall (token_request cfg) ;;
    match result with
    | Rejected name message =>
        if (name =? "AbortError")%string
        then throw (SophosClientError
                      ("OAuth2 token request timed out after "
                         ++ Js.String_of_number (SophosConfig.timeout cfg) ++ "ms")
                      None)
        else throw (Native name message)
    | Responded response =>
        if negb (ok response)
        then
          let errorText :=
            match text response with Some t => t | None => "Unknown error" end in
          throw (SophosAuthError
                   ("OAuth2 authentication failed ("
                      ++ Js.String_of_number (status response) ++ "): " ++ errorText)
                   (Some (status response)))
        else
          tokenData <- response_json response ;;
          if Js.truthy_string (SophosTokenResponse.errorCode tokenData)
          then throw (SophosAuthError
                        ("OAuth2 error: "
                           ++ Js.interpolate (SophosTokenResponse.errorCode tokenData)
                           ++ " — "
                           ++ Js.interpolate (SophosTokenResponse.message tokenData))
                        None)
          else
            set_accessToken (Some (SophosTokenResponse.access_token tokenData)) ;;
            now' <- Date_now ;;
            set_tokenExpiresAt
              (Some (now' + (SophosTokenResponse.expires_in tokenData - 60) * 1000)) ;;
            ret (SophosTokenResponse.access_token tokenData)
    end
  end.

(* -------------------------------------------------------------------- *)
(** *** Tenant discovery *)

Definition discoverTenant : Async unit :=
  c <- get_this ;;
  if Js.truthy_string (dataRegionUrl c) && Js.truthy_string (tenantId c)
  then ret tt
  else
    token <- authenticate ;;
    result <- fetch_with (whoami_endpoint P) WhoamiCall
                (whoami_request (config c) token) ;;
    match result with
    | Rejected name message => throw (Native name message)
    | Responded response =>
        if negb (ok response)
        then throw (SophosClientError
                      ("Tenant discovery failed ("
                         ++ Js.String_of_number (status response) ++ ")")
                      (Some (status response)))
        else
          whoami <- response_json response ;;
          c1 <- get_this ;;
          set_dataRegionUrl
            (Some (Js.or_string (dataRegionUrl c1)
                     (SophosWhoamiResponse.dataRegion
                        (SophosWhoamiResponse.apiHosts whoami)))) ;;
          c2 <- get_this ;;
          set_tenantId
            (Some (Js.or_string (tenantId c2) (SophosWhoamiResponse.id whoami)))
    end.

(* -------------------------------------------------------------------- *)
(** *** Core HTTP *)

(** The message built at the top of [handleErrorResponse]: status and
    status text, then the [message] of the JSON body when it is truthy,
    else its [error] when that is truthy; a body that does not parse
    leaves the message as it is. *)
Definition errorMsg_of (response : Response Json) : string :=
  let errorMsg :=
    Js.String_of_number (status response) ++ " " ++ statusText response in
  match json response with
  | None => errorMsg
  | Some errorBody =>
      match JsonValue.member errorBody "message", JsonValue.member errorBody "error" with
      | Some m, e =>
          if JsonValue.truthy m then errorMsg ++ ": " ++ JsonValue.to_String m
          else match e with
               | Some e' =>
                   if JsonValue.truthy e'
                   then errorMsg ++ ": " ++ JsonValue.to_String e'
                   else errorMsg
               | None => errorMsg
               end
      | None, Some e' =>
          if JsonValue.truthy e' then errorMsg ++ ": " ++ JsonValue.to_String e'
          else errorMsg
      | None, None => errorMsg
      end
  end.

(** [Promise<never>]: there is no value to return. *)
Definition handleErrorResponse (response : Response Json) : Async Empty_set :=
  let errorMsg := errorMsg_of response in
  if (status response =? 401) || (status response =? 403)
  then
    set_accessToken None ;;
    set_tokenExpiresAt None ;;
    throw (SophosAuthError ("Authentication failed: " ++ errorMsg)
             (Some (status response)))
  else if status response =? 429
  then
    let retryAfter := headers_get response "Retry-After" in
    throw (SophosRateLimitError ("Rate limited: " ++ errorMsg)
             (if Js.truthy_string retryAfter
              then Some (Js.parseInt (Js.interpolate retryAfter))
              else None))
  else
    throw (SophosClientError ("Request failed: " ++ errorMsg)
             (Some (status response))).

(** [new URL(text)] *)
Definition new_URL (text : string) : Async Url :=
  if URL_parses P text
  then ret {| href := text; searchParams := [] |}
  else throw (Native "TypeError" "Invalid URL").

(** The loop over [Object.entries(params)]. *)
Definition with_params (u : Url) (params : option Params) : Url :=
  match params with
  | Some entries =>
      fold_left
        (fun u' '(key, value) =>
           match value with
           | Some v => searchParams_set key (String_of_param v) u'
           | None => u'
           end)
        entries u
  | None => u
  end.

(** The first half of [request], up to the awaited [fetch]: resolve,
    authenticate, build the URL and the headers, send. *)
Definition dispatch (method endpoint : string) (params : option Params)
    (body : option Json) (useGlobalUrl : bool) : Async (FetchResult Json) :=
  discoverTenant ;;
  token <- authenticate ;;
  c <- get_this ;;
  let baseUrl :=
    if useGlobalUrl then SophosConfig.globalUrl (config c)
    else Js.interpolate (dataRegionUrl c) in
  url0 <- new_URL (baseUrl ++ endpoint) ;;
  let headers :=
    List.app
      [("Authorization", "Bearer " ++ token);
       ("Content-Type", "application/json");
       ("Accept", "application/json")]
      (if negb useGlobalUrl && Js.truthy_string (tenantId c)
       then [("X-Tenant-ID", Js.interpolate (tenantId c))]
       else []) in
  fetch_with (resource_api P) ApiCall
    {| url := with_params url0 params;
       method := method;
       headers := headers;
       body := match body with
               | Some b => if JsonValue.truthy b then JsonBody b else NoBody
               | None => NoBody
               end |}.

(** [request]: [dispatch], then the [catch] of a rejected [fetch] and the
    classification of the response. *)
Definition request (method endpoint : string) (params : option Params)
    (body : option Json) (useGlobalUrl : bool) : Async Json :=
  result <- dispatch method endpoint params body useGlobalUrl ;;
  c <- get_this ;;
  match result with
  | Rejected name message =>
      if (name =? "AbortError")%string
      then throw (SophosClientError
                    ("Sophos Central API timeout after "
                       ++ Js.String_of_number (SophosConfig.timeout (config c)) ++ "ms")
                    None)
      else throw (Native name message)
  | Responded response =>
      (if negb (ok response)
       then (never <- handleErrorResponse response ;;
             match never : Empty_set with end)
       else ret tt) ;;
      if status response =? 204
      then ret (JObject [])
      else response_json response
  end.

Definition get (endpoint : string) (params : option Params) (useGlobalUrl : bool)
    : Async Json :=
  request "GET" endpoint params None useGlobalUrl.

Definition post (endpoint : string) (body : option Json) (params : option Params)
    (useGlobalUrl : bool) : Async Json :=
  request "POST" endpoint params body useGlobalUrl.

Definition patch (endpoint : string) (body : option Json) (params : option Params)
    : Async Json :=
  request "PATCH" endpoint params body false.

Definition delete (endpoint : string) (params : option Params) : Async Json :=
  request "DELETE" endpoint params None false.

End Client.

(* ====================================================================== *)
(** ** Callers and observations *)
(* ====================================================================== *)

(** The test that opens [discoverTenant]:
    [this.dataRegionUrl && this.tenantId]. *)
Definition resolved (c : SophosClient) : bool :=
  Js.truthy_string (dataRegionUrl c) && Js.truthy_string (tenantId c).

Definition is_WhoamiCall (c : Call) : bool :=
  match c with
  | WhoamiCall _ => true
  | _ => false
  end.

(** How often the discovery endpoint has been called. *)
Definition discoveries (w : World) : nat :=
  List.length (filter is_WhoamiCall (wire w)).

(** The requests sent to the resource API, the latest first. *)
Fixpoint api_requests (calls : list Call) : list Request :=
  match calls with
  | [] => []
  | ApiCall rq :: rest => rq :: api_requests rest
  | _ :: rest => api_requests rest
  end.

(** The token endpoint always answers, or the request is aborted by the
    timeout: [fetch] is never rejected for another reason, and the body of
    a success response is JSON of the shape of [SophosTokenResponse]
    ([json] gives a value of the interface). *)
Definition token_exchange_answers_or_times_out (P : Platform) : Prop :=
  forall rq w,
    match snd (token_endpoint P rq w) with
    | Rejected name _ => name = "AbortError"
    | Responded r => ok r = true -> json r <> None
    end.

(** The discovery endpoint always answers, and the body of a success
    response is JSON of the shape of [SophosWhoamiResponse] ([json] gives a
    value of the interface). *)
Definition discovery_call_answers (P : Platform) : Prop :=
  forall rq w,
    match snd (whoami_endpoint P rq w) with
    | Rejected _ _ => False
    | Responded r => ok r = true -> json r <> None
    end.

(** [later] is [earlier] with some more calls made. *)
Definition follows (earlier later : list Call) : Prop :=
  exists calls, later = (calls ++ earlier)%list.

(** One call of [request] by the code around the client, [after]
    milliseconds of doing something else. *)
Record Invocation : Type := {
  after : Z;
  inv_method : string;
  inv_endpoint : string;
  inv_params : option Params;
  inv_body : option Json;
  inv_useGlobalUrl : bool
}.

Definition elapse (ms : Z) (s : Sys) : Sys :=
  {| this := this s;
     world := {| clock := clock (world s) + ms; wire := wire (world s) |} |}.

(** A caller that makes the invocations one after the other and goes on
    whatever each of them returns or throws. *)
Fixpoint run (P : Platform) (l : list Invocation) (s : Sys) : Sys :=
  match l with
  | [] => s
  | i :: rest =>
      run P rest
        (snd (request P (inv_method i) (inv_endpoint i) (inv_params i)
                (inv_body i) (inv_useGlobalUrl i) (elapse (after i) s)))
  end.

(** [x.message] *)
Definition error_message (x : Thrown) : string :=
  match x with
  | Sophos _ m _ _ => m
  | Native _ m => m
  end.

(** The number a decimal numeral denotes, read from its most significant
    digit, after the digits already read have given [acc]. *)
Fixpoint numeral_value (d : Decimal.uint) (acc : Z) : Z :=
  match d with
  | Decimal.Nil => acc
  | Decimal.D0 d' => numeral_value d' (10 * acc + 0)
  | Decimal.D1 d' => numeral_value d' (10 * acc + 1)
  | Decimal.D2 d' => numeral_value d' (10 * acc + 2)
  | Decimal.D3 d' => numeral_value d' (10 * acc + 3)
  | Decimal.D4 d' => numeral_value d' (10 * acc + 4)
  | Decimal.D5 d' => numeral_value d' (10 * acc + 5)
  | Decimal.D6 d' => numeral_value d' (10 * acc + 6)
  | Decimal.D7 d' => numeral_value d' (10 * acc + 7)
  | Decimal.D8 d' => numeral_value d' (10 * acc + 8)
  | Decimal.D9 d' => numeral_value d' (10 * acc + 9)
  end.

Definition is_TokenCall (c : Call) : bool :=
  match c with
  | TokenCall _ => true
  | _ => false
  end.

(** How often the token endpoint has been called. *)
Definition token_exchanges (w : World) : nat :=
  List.length (filter is_TokenCall (wire w)).

(** The resource API never answers 401 or 403. *)
Definition never_unauthorized (P : Platform) : Prop :=
  forall rq w,
    match snd (resource_api P rq w) with
    | Responded r => status r <> 401 /\ status r <> 403
    | Rejected _ _ => True
    end.

(** Every invocation of the sequence starts at a time of the clock that
    is not before the epoch and is before [expiresAt]. *)
Fixpoint within_validity (P : Platform) (expiresAt : Z) (l : list Invocation) (s : Sys)
    : Prop :=
  match l with
  | [] => True
  | i :: rest =>
      0 <= clock (world (elapse (after i) s)) < expiresAt
      /\ within_validity P expiresAt rest
           (snd (request P (inv_method i) (inv_endpoint i) (inv_params i)
                   (inv_body i) (inv_useGlobalUrl i) (elapse (after i) s)))
  end.

(** [url.searchParams.get(key)]: the first value with the key. *)
Fixpoint searchParams_get (key : string) (l : list (string * string)) : option string :=
  match l with
  | [] => None
  | (k, v) :: rest => if (k =? key)%string then Some v else searchParams_get key rest
  end.

(** The entries of a [params] record that have a value, each with the
    text of its value. *)
Fixpoint defined_entries (entries : Params) : list (string * string) :=
  match entries with
  | [] => []
  | (key, Some v) :: rest => (key, String_of_param v) :: defined_entries rest
  | (_, None) :: rest => defined_entries rest
  end.

(** The body of a request (the projection, under a name that the
    arguments called [body] do not hide). *)
Definition body_sent (rq : Request) : Payload := body rq.

(** The value of a header of a request, by its exact name. *)
Fixpoint header_value (name : string) (hs : list (string * string)) : option string :=
  match hs with
  | [] => None
  | (n, v) :: rest => if (n =? name)%string then Some v else header_value name rest
  end.

(* ====================================================================== *)
(** ** Entity methods *)
(* ====================================================================== *)

(** An object literal, as [JSON.stringify] sees it: a member whose value
    is [undefined] is left out. *)
Fixpoint object_literal (members : list (string * option Json)) : list (string * Json) :=
  match members with
  | [] => []
  | (k, Some v) :: rest => (k, v) :: object_literal rest
  | (_, None) :: rest => object_literal rest
  end.

(** A parameter declared [params = {}]: a missing argument is the empty
    record. *)
Definition params_or_empty (params : option Params) : option Params :=
  match params with
  | Some entries => Some entries
  | None => Some []
  end.

Section EntityMethods.

Variable P : Platform.

Definition getEndpoints (params : option Params) : Async Json :=
  get P "/endpoint/v1/endpoints" (params_or_empty params) false.

Definition getEndpoint (endpointId : string) : Async Json :=
  get P ("/endpoint/v1/endpoints/" ++ endpointId) None false.

Definition isolateEndpoint (endpointId : string) (comment : option string) : Async Json :=
  post P ("/endpoint/v1/endpoints/" ++ endpointId ++ "/isolation")
    (Some (JObject (object_literal
                      [("enabled", Some (JBool true));
                       ("comment", option_map JString comment)])))
    None false.

Definition unisolateEndpoint (endpointId : string) (comment : option string) : Async Json :=
  post P ("/endpoint/v1/endpoints/" ++ endpointId ++ "/isolation")
    (Some (JObject (object_literal
                      [("enabled", Some (JBool false));
                       ("comment", option_map JString comment)])))
    None false.

Definition scanEndpoint (endpointId : string) : Async Json :=
  post P ("/endpoint/v1/endpoints/" ++ endpointId ++ "/scans")
    (Some (JObject (object_literal [("type", Some (JString "full"))])))
    None false.

Definition getEndpointSoftware (endpointId : string) (params : option Params) : Async Json :=
  get P ("/endpoint/v1/endpoints/" ++ endpointId ++ "/software")
    (params_or_empty params) false.

Definition getAlerts (params : option Params) : Async Json :=
  get P "/common/v1/alerts" (params_or_empty params) false.

Definition getAlert (alertId : string) : Async Json :=
  get P ("/common/v1/alerts/" ++ alertId) None false.

Definition performAlertAction (alertId action : string) (message : option string)
    : Async Json :=
  post P ("/common/v1/alerts/" ++ alertId ++ "/actions")
    (Some (JObject (object_literal
                      [("action", Some (JString action));
                       ("message", option_map JString message)])))
    None false.

Definition getDetections (params : option Params) : Async Json :=
  get P "/xdr/v1/detections" (params_or_empty params) false.

Definition getDetection (detectionId : string) : Async Json :=
  get P ("/xdr/v1/detections/" ++ detectionId) None false.

Definition getThreatCases (params : option Params) : Async Json :=
  get P "/xdr/v1/threat-cases" (params_or_empty params) false.

Definition getCaseDetections (caseId : string) (params : option Params) : Async Json :=
  get P ("/xdr/v1/threat-cases/" ++ caseId ++ "/detections")
    (params_or_empty params) false.

(** [body.assignee] is added after [status] when [assigneeId] is truthy. *)
Definition updateCaseStatus (caseId status : string) (assigneeId : option string)
    : Async Json :=
  let body :=
    List.app
      [("status", JString status)]
      (if Js.truthy_string assigneeId
       then [("assignee", JObject [("id", JString (Js.interpolate assigneeId))])]
       else []) in
  patch P ("/xdr/v1/threat-cases/" ++ caseId) (Some (JObject body)) None.

Definition getEvents (params : option Params) : Async Json :=
  get P "/siem/v1/events" (params_or_empty params) false.

Definition getEvent (eventId : string) : Async Json :=
  get P ("/siem/v1/events/" ++ eventId) None false.

Definition getAuditLogs (params : option Params) : Async Json :=
  get P "/siem/v1/audit/events" (params_or_empty params) false.

Definition getPolicies (params : option Params) : Async Json :=
  get P "/endpoint/v1/policies" (params_or_empty params) false.

Definition getPolicy (policyId : string) : Async Json :=
  get P ("/endpoint/v1/policies/" ++ policyId) None false.

Definition getExclusions (params : option Params) : Async Json :=
  get P "/endpoint/v1/settings/exclusions/scanning" (params_or_empty params) false.

Definition getTenants (params : option Params) : Async Json :=
  get P "/partner/v1/tenants" (params_or_empty params) true.

Definition getTenant (tenantId : string) : Async Json :=
  get P ("/partner/v1/tenants/" ++ tenantId) None true.

(** [variables] is the list of the entries of the record. *)
Definition runLiveDiscoverQuery (sql : string) (endpointIds : list string)
    (variables : option (list (string * string))) : Async Json :=
  post P "/live-discover/v1/queries/runs"
    (Some (JObject (object_literal
       [("sql", Some (JString sql));
        ("matchEndpoints",
         Some (JArray (map (fun id => JObject [("id", JString id)]) endpointIds)));
        ("variables",
         option_map
           (fun entries =>
              JArray (map (fun '(name, value) =>
                             JObject [("name", JString name); ("value", JString value)])
                          entries))
           variables)])))
    None false.

Definition getSavedQueries (params : option Params) : Async Json :=
  get P "/live-discover/v1/queries" (params_or_empty params) false.

Definition getQueryResults (queryRunId : string) (params : option Params) : Async Json :=
  get P ("/live-discover/v1/queries/runs/" ++ queryRunId ++ "/results")
    (params_or_empty params) false.

End EntityMethods.

(** A call of one of the entity methods, with its arguments. *)
Inductive EntityCall : Type :=
| GetEndpoints (params : option Params)
| GetEndpoint (endpointId : string)
| IsolateEndpoint (endpointId : string) (comment : option string)
| UnisolateEndpoint (endpointId : string) (comment : option string)
| ScanEndpoint (endpointId : string)
| GetEndpointSoftware (endpointId : string) (params : option Params)
| GetAlerts (params : option Params)
| GetAlert (alertId : string)
| PerformAlertAction (alertId action : string) (message : option string)
| GetDetections (params : option Params)
| GetDetection (detectionId : string)
| GetThreatCases (params : option Params)
| GetCaseDetections (caseId : string) (params : option Params)
| UpdateCaseStatus (caseId status : string) (assigneeId : option string)
| GetEvents (params : option Params)
| GetEvent (eventId : string)
| GetAuditLogs (params : option Params)
| GetPolicies (params : option Params)
| GetPolicy (policyId : string)
| GetExclusions (params : option Params)
| GetTenants (params : option Params)
| GetTenant (tenantId : string)
| RunLiveDiscoverQuery (sql : string) (endpointIds : list string)
                       (variables : option (list (string * string)))
| GetSavedQueries (params : option Params)
| GetQueryResults (queryRunId : string) (params : option Params).

Definition perform (P : Platform) (call : EntityCall) : Async Json :=
  match call with
  | GetEndpoints params => getEndpoints P params
  | GetEndpoint endpointId => getEndpoint P endpointId
  | IsolateEndpoint endpointId comment => isolateEndpoint P endpointId comment
  | UnisolateEndpoint endpointId comment => unisolateEndpoint P endpointId comment
  | ScanEndpoint endpointId => scanEndpoint P endpointId
  | GetEndpointSoftware endpointId params => getEndpointSoftware P endpointId params
  | GetAlerts params => getAlerts P params
  | GetAlert alertId => getAlert P alertId
  | PerformAlertAction alertId action message =>
      performAlertAction P alertId action message
  | GetDetections params => getDetections P params
  | GetDetection detectionId => getDetection P detectionId
  | GetThreatCases params => getThreatCases P params
  | GetCaseDetections caseId params => getCaseDetections P caseId params
  | UpdateCaseStatus caseId status assigneeId =>
      updateCaseStatus P caseId status assigneeId
  | GetEvents params => getEvents P params
  | GetEvent eventId => getEvent P eventId
  | GetAuditLogs params => getAuditLogs P params
  | GetPolicies params => getPolicies P params
  | GetPolicy policyId => getPolicy P policyId
  | GetExclusions params => getExclusions P params
  | GetTenants params => getTenants P params
  | GetTenant tenantId => getTenant P tenantId
  | RunLiveDiscoverQuery sql endpointIds variables =>
      runLiveDiscoverQuery P sql endpointIds variables
  | GetSavedQueries params => getSavedQueries P params
  | GetQueryResults queryRunId params => getQueryResults P queryRunId params
  end.

(** The two methods of the partner API. *)
Definition is_tenant_call (call : EntityCall) : bool :=
  match call with
  | GetTenants _ | GetTenant _ => true
  | _ => false
  end.

(** The methods that change something on the remote side. *)
Definition is_action (call : EntityCall) : bool :=
  match call with
  | IsolateEndpoint _ _ | UnisolateEndpoint _ _ | ScanEndpoint _
  | PerformAlertAction _ _ _ | UpdateCaseStatus _ _ _
  | RunLiveDiscoverQuery _ _ _ => true
  | _ => false
  end.

(* ====================================================================== *)
(** ** Loading the configuration (config.ts) *)
(* ====================================================================== *)

(** [process.env] *)
Definition Env : Type := string -> option string.

Definition SOPHOS_AUTH_URL : string := "https://id.sophos.com/api/v2/oauth2/token".
Definition SOPHOS_GLOBAL_URL : string := "https://api.central.sophos.com".

(** [s.replace(/\/+$/, "")]: the slashes that end the text are removed. *)
Fixpoint strip_trailing_slashes (s : string) : string :=
  match s with
  | EmptyString => EmptyString
  | String c r =>
      let r' := strip_trailing_slashes r in
      if (Ascii.eqb c "/") && (r' =? "")%string then EmptyString else String c r'
  end.

(** [n * 1000] for the result of [parseInt]: the exact product, which is
    the product of the code while its magnitude is at most 2^53. *)
Definition times (n : Js.number) (k : Z) : Js.number :=
  match n with
  | Js.NaN => Js.NaN
  | Js.Num v => Js.Num (v * k)
  end.

(** The object [getConfig] returns.  Its [timeout] is a product with the
    result of [parseInt] and may be NaN. *)
Module LoadedConfig.
Record t : Type := {
  clientId : string;
  clientSecret : string;
  tenantId : option string;
  apiUrl : option string;
  authUrl : string;
  globalUrl : string;
  timeout : Js.number
}.
End LoadedConfig.

Definition missing_message (variable : string) : string :=
  variable ++ " environment variable is required. "
    ++ "Create API credentials in Sophos Central > Global Settings > API Credentials Management.".

Definition getConfig (env : Env) : Completion LoadedConfig.t :=
  let clientId := env "SOPHOS_CLIENT_ID" in
  if negb (Js.truthy_string clientId)
  then Throw (Native "Error" (missing_message "SOPHOS_CLIENT_ID"))
  else
    let clientSecret := env "SOPHOS_CLIENT_SECRET" in
    if negb (Js.truthy_string clientSecret)
    then Throw (Native "Error" (missing_message "SOPHOS_CLIENT_SECRET"))
    else
      let tenantId := env "SOPHOS_TENANT_ID" in
      let apiUrl := option_map strip_trailing_slashes (env "SOPHOS_API_URL") in
      let authUrl :=
        strip_trailing_slashes (Js.or_string (env "SOPHOS_AUTH_URL") SOPHOS_AUTH_URL) in
      let globalUrl := SOPHOS_GLOBAL_URL in
      let timeout :=
        times (Js.parseInt match env "SOPHOS_TIMEOUT" with
                           | Some v => v
                           | None => "30"
                           end) 1000 in
      Return {| LoadedConfig.clientId := Js.interpolate clientId;
                LoadedConfig.clientSecret := Js.interpolate clientSecret;
                LoadedConfig.tenantId := tenantId;
                LoadedConfig.apiUrl := apiUrl;
                LoadedConfig.authUrl := authUrl;
                LoadedConfig.globalUrl := globalUrl;
                LoadedConfig.timeout := timeout |}.

(** The loaded object as the [SophosConfig] the client model takes, when
    its timeout is a number. *)
Definition as_SophosConfig (c : LoadedConfig.t) : option SophosConfig.t :=
  match LoadedConfig.timeout c with
  | Js.Num ms =>
      Some {| SophosConfig.clientId := LoadedConfig.clientId c;
              SophosConfig.clientSecret := LoadedConfig.clientSecret c;
              SophosConfig.tenantId := LoadedConfig.tenantId c;
              SophosConfig.apiUrl := LoadedConfig.apiUrl c;
              SophosConfig.authUrl := LoadedConfig.authUrl c;
              SophosConfig.globalUrl := LoadedConfig.globalUrl c;
              SophosConfig.timeout := ms |}
  | Js.NaN => None
  end.

Fixpoint ends_with_slash (s : string) : bool :=
  match s with
  | EmptyString => false
  | String c EmptyString => Ascii.eqb c "/"
  | String _ r => ends_with_slash r
  end.

Fixpoint slashes (n : nat) : string :=
  match n with
  | O => EmptyString
  | S m => String "/" (slashes m)
  end.

(* ====================================================================== *)
(** ** The health report of the [get_tenant_health] tool *)
(* ====================================================================== *)

Module HealthReport.
Record t : Type := {
  tenantId : string;
  endpointCount : Z;
  activeAlerts : Z;
  healthScore : Z;
  healthRating : string;
  summary : string;
  recommendations : list string
}.
End HealthReport.

(** The [result] object the handler builds from [tenant_id] and the two
    totals, [endpointsResp.pages.items] and [alertsResp.pages.items]. *)
Definition tenant_health_result (tenant_id : string) (totalEndpoints totalAlerts : Z)
    : HealthReport.t :=
  let healthScore := Z.max 0 (100 - totalAlerts * 2) in
  {| HealthReport.tenantId := tenant_id;
     HealthReport.endpointCount := totalEndpoints;
     HealthReport.activeAlerts := totalAlerts;
     HealthReport.healthScore := Z.min 100 healthScore;
     HealthReport.healthRating :=
       if 90 <=? healthScore then "excellent"
       else if 70 <=? healthScore then "good"
       else if 50 <=? healthScore then "fair"
       else "poor";
     HealthReport.summary :=
       ("Tenant has " ++ Js.String_of_number totalEndpoints
          ++ " managed endpoints with " ++ Js.String_of_number totalAlerts
          ++ " active alerts. ")
         ++ ("Health score: " ++ Js.String_of_number (Z.min 100 healthScore) ++ "/100.");
     HealthReport.recommendations :=
       if 10 <? totalAlerts
       then ["Review and triage active alerts immediately";
             "Investigate high-severity alerts first";
             "Check for unprotected or unhealthy endpoints";
             "Verify tamper protection is enabled across all endpoints"]
       else if 0 <? totalAlerts
       then ["Continue monitoring active alerts";
             "Ensure all endpoints have up-to-date protection"]
       else ["All clear — maintain regular monitoring schedule"] |}.

(* ====================================================================== *)
(** ** Concrete scenarios *)
(* ====================================================================== *)

Module Scenario.

(** Credentials only: the tenant and the region have to be discovered. *)
Definition credentials_only : SophosConfig.t :=
  {| SophosConfig.clientId := "client-id";
     SophosConfig.clientSecret := "client-secret";
     SophosConfig.tenantId := None;
     SophosConfig.apiUrl := None;
     SophosConfig.authUrl := "https://id.sophos.com/api/v2/oauth2/token";
     SophosConfig.globalUrl := "https://api.central.sophos.com";
     SophosConfig.timeout := 30000 |}.

(** Tenant and region given by the environment. *)
Definition preconfigured : SophosConfig.t :=
  {| SophosConfig.clientId := "client-id";
     SophosConfig.clientSecret := "client-secret";
     SophosConfig.tenantId := Some "tenant-cfg";
     SophosConfig.apiUrl := Some "https://api-us03.central.sophos.com";
     SophosConfig.authUrl := "https://id.sophos.com/api/v2/oauth2/token";
     SophosConfig.globalUrl := "https://api.central.sophos.com";
     SophosConfig.timeout := 30000 |}.

(** Only the region is configured. *)
Definition region_only : SophosConfig.t :=
  {| SophosConfig.clientId := "client-id";
     SophosConfig.clientSecret := "client-secret";
     SophosConfig.tenantId := None;
     SophosConfig.apiUrl := Some "https://api-us03.central.sophos.com";
     SophosConfig.authUrl := "https://id.sophos.com/api/v2/oauth2/token";
     SophosConfig.globalUrl := "https://api.central.sophos.com";
     SophosConfig.timeout := 30000 |}.

Definition no_header : string -> option string := fun _ => None.

Definition retry_after_30 : string -> option string :=
  fun name => if (name =? "Retry-After")%string then Some "30" else None.

Definition token_body (token : string) (expires_in : Z) (errorCode : option string)
    : SophosTokenResponse.t :=
  {| SophosTokenResponse.access_token := token;
     SophosTokenResponse.token_type := "bearer";
     SophosTokenResponse.expires_in := expires_in;
     SophosTokenResponse.refresh_token := None;
     SophosTokenResponse.errorCode := errorCode;
     SophosTokenResponse.message := None |}.

(** 200 with a token good for an hour. *)
Definition token_granted : Response SophosTokenResponse.t :=
  {| status := 200; statusText := "OK"; headers_get := no_header;
     text := None; json := Some (token_body "token-1" 3600 None) |}.

(** 200 with an error code inside the body. *)
Definition token_refused_in_body : Response SophosTokenResponse.t :=
  {| status := 200; statusText := "OK"; headers_get := no_header;
     text := None; json := Some (token_body "" 0 (Some "customer.validation")) |}.

Definition whoami_answer : Response SophosWhoamiResponse.t :=
  {| status := 200; statusText := "OK"; headers_get := no_header;
     text := None;
     json := Some {| SophosWhoamiResponse.id := "tenant-found";
                     SophosWhoamiResponse.idType := SophosWhoamiResponse.tenant;
                     SophosWhoamiResponse.apiHosts :=
                       {| SophosWhoamiResponse.global := "https://api.central.sophos.com";
                          SophosWhoamiResponse.dataRegion :=
                            "https://api-eu01.central.sophos.com" |} |} |}.

Definition whoami_unavailable : Response SophosWhoamiResponse.t :=
  {| status := 503; statusText := "Service Unavailable"; headers_get := no_header;
     text := None; json := None |}.

Definition api_answer (status : Z) (statusText : string)
    (headers : string -> option string) (body : option Json) : Response Json :=
  {| status := status; statusText := statusText; headers_get := headers;
     text := None; json := body |}.

(** A platform that answers every call of a kind the same way. *)
Definition platform (token : Z * FetchResult SophosTokenResponse.t)
    (whoami : Z * FetchResult SophosWhoamiResponse.t)
    (api : Z * FetchResult Json) : Platform :=
  {| token_endpoint := fun _ _ => token;
     whoami_endpoint := fun _ _ => whoami;
     resource_api := fun _ _ => api;
     URL_parses := fun _ => true |}.

(** Everything works. *)
Definition healthy (api : Response Json) : Platform :=
  platform (120, Responded token_granted) (80, Responded whoami_answer)
    (50, Responded api).

Definition start (cfg : SophosConfig.t) (now : Z) : Sys :=
  {| this := constructor cfg; world := {| clock := now; wire := [] |} |}.

(** 401 from the token endpoint, with a text body. *)
Definition token_denied : Response SophosTokenResponse.t :=
  {| status := 401; statusText := "Unauthorized"; headers_get := no_header;
     text := Some "invalid_client"; json := None |}.

(** 200 with a token good for 45 seconds. *)
Definition token_short_lived : Response SophosTokenResponse.t :=
  {| status := 200; statusText := "OK"; headers_get := no_header;
     text := None; json := Some (token_body "token-s" 45 None) |}.

(** A client that knows its region and holds a token good until [until]. *)
Definition warm (until now : Z) : Sys :=
  {| this := {| config := preconfigured;
                accessToken := Some "token-0";
                tokenExpiresAt := Some until;
                dataRegionUrl := Some "https://api-us03.central.sophos.com";
                tenantId := Some "tenant-cfg" |};
     world := {| clock := now; wire := [] |} |}.

(** An environment with the two credentials and the given other
    variables. *)
Definition environment (others : list (string * string)) : Env :=
  fun name =>
    header_value name
      (("SOPHOS_CLIENT_ID", "client-id") :: ("SOPHOS_CLIENT_SECRET", "client-secret")
         :: others).

End Scenario.

(* ====================================================================== *)
(** ** Proof tools *)
(* ====================================================================== *)

Ltac unfold_async :=
  unfold response_json, new_URL, fetch_with in *;
  unfold bind, ret, throw, get_this, Date_now, set_accessToken,
    set_tokenExpiresAt, set_dataRegionUrl, set_tenantId in *.

(** Case analysis on what an endpoint answers. *)
Ltac destruct_endpoint :=
  match goal with
  | |- context [token_endpoint ?P ?rq ?w] =>
      destruct (token_endpoint P rq w) as [? [? ?|?]] eqn:?
  | |- context [whoami_endpoint ?P ?rq ?w] =>
      destruct (whoami_endpoint P rq w) as [? [? ?|?]] eqn:?
  | |- context [resource_api ?P ?rq ?w] =>
      destruct (resource_api P rq w) as [? [? ?|?]] eqn:?
  end.

(** Case analysis on an innermost scrutinee of the goal. *)
Ltac break_match :=
  match goal with
  | |- context [match ?x with _ => _ end] =>
      lazymatch x with
      | context [match _ with _ => _ end] => fail
      | _ => destruct x eqn:?
      end
  end.

(* ====================================================================== *)
(** ** The token cache *)
(* ====================================================================== *)

Section TokenCache.

Variable P : Platform.

Lemma cached_token_hit (c : SophosClient) (now : Z) (token : string) (e : Z) :
  accessToken c = Some token -> tokenExpiresAt c = Some e ->
  token <> "" -> 0 <= now -> now < e ->
  cached_token c now = Some token.
Proof.
  intros Ha He Hne H0 Hlt. unfold cached_token. rewrite Ha, He. simpl.
  destruct (String.eqb_spec token ""); [contradiction|].
  destruct (Z.eqb_spec e 0); [lia|].
  destruct (Z.ltb_spec now e); [reflexivity|lia].
Qed.

Lemma cached_token_stale (c : SophosClient) (now : Z) (e : Z) :
  tokenExpiresAt c = Some e -> e <= now -> cached_token c now = None.
Proof.
  intros He Hle. unfold cached_token. rewrite He.
  destruct (accessToken c); [|reflexivity].
  destruct (Z.ltb_spec now e); [lia|].
  now rewrite !andb_false_r.
Qed.


(** A usable cached token is returned at once: no call, no change. *)
Lemma authenticate_cached (s : Sys) (token : string) :
  cached_token (this s) (clock (world s)) = Some token ->
  authenticate P s = (Return token, s).
Proof.
  intros H. unfold authenticate. unfold_async. now rewrite H.
Qed.

(** Without one, exactly one call is made, to the token endpoint. *)
Lemma authenticate_exchanges (s : Sys) :
  cached_token (this s) (clock (world s)) = None ->
  wire (world (snd (authenticate P s)))
  = TokenCall (token_request (config (this s))) :: wire (world s).
Proof.
  intros H. unfold authenticate. unfold_async. rewrite H.
  destruct_endpoint; simpl.
  - break_match; reflexivity.
  - repeat (break_match; simpl); reflexivity.
Qed.

(** A successful exchange stores the token and its early expiry. *)
Lemma authenticate_stores (s : Sys) (elapsed : Z)
    (r : Response SophosTokenResponse.t) (tokenData : SophosTokenResponse.t) :
  cached_token (this s) (clock (world s)) = None ->
  token_endpoint P (token_request (config (this s))) (world s)
  = (elapsed, Responded r) ->
  ok r = true -> json r = Some tokenData ->
  Js.truthy_string (SophosTokenResponse.errorCode tokenData) = false ->
  authenticate P s
  = (Return (SophosTokenResponse.access_token tokenData),
     {| this :=
          {| config := config (this s);
             accessToken := Some (SophosTokenResponse.access_token tokenData);
             tokenExpiresAt :=
               Some (clock (world s) + elapsed
                     + (SophosTokenResponse.expires_in tokenData - 60) * 1000);
             dataRegionUrl := dataRegionUrl (this s);
             tenantId := tenantId (this s) |};
        world :=
          {| clock := clock (world s) + elapsed;
             wire := TokenCall (token_request (config (this s))) :: wire (world s) |} |}).
Proof.
  intros Hc He Hok Hj Herr. unfold authenticate. unfold_async.
  rewrite Hc, He. simpl. rewrite Hok. simpl. rewrite Hj. simpl.
  rewrite Herr. reflexivity.
Qed.

(** [authenticate] never touches the region binding or the
    configuration, and never calls the discovery endpoint. *)
Lemma authenticate_frame (s : Sys) :
  let s' := snd (authenticate P s) in
  config (this s') = config (this s)
  /\ dataRegionUrl (this s') = dataRegionUrl (this s)
  /\ tenantId (this s') = tenantId (this s)
  /\ discoveries (world s') = discoveries (world s).
Proof.
  unfold authenticate, discoveries. unfold_async.
  destruct (cached_token _ _); simpl; auto.
  destruct_endpoint; simpl.
  - break_match; simpl; auto.
  - repeat (break_match; simpl); auto.
Qed.

End TokenCache.

(** C1. After a token exchange that stored, at time [t0], a token the
    response gave [expires_in] seconds (true expiry [T = t0 + expires_in]
    seconds, all clock values in milliseconds): [authenticate] called at
    any time before [T - 60 s] returns the cached token and leaves the
    state, hence the list of calls, as it is; called at or after
    [T - 60 s] it makes the token exchange again.  So at [T - 61 s] the
    cache is used and at [T - 59 s] the token is renewed.  The token is a
    non-empty string and the clock does not read a time before the epoch. *)
Theorem authenticate_safety_margin :
  forall (P : Platform) (s : Sys) (elapsed : Z)
         (r : Response SophosTokenResponse.t) (tokenData : SophosTokenResponse.t),
    cached_token (this s) (clock (world s)) = None ->
    token_endpoint P (token_request (config (this s))) (world s)
    = (elapsed, Responded r) ->
    ok r = true -> json r = Some tokenData ->
    Js.truthy_string (SophosTokenResponse.errorCode tokenData) = false ->
    SophosTokenResponse.access_token tokenData <> "" ->
    let t0 := clock (world s) + elapsed in
    let T := t0 + SophosTokenResponse.expires_in tokenData * 1000 in
    let holder := this (snd (authenticate P s)) in
    let at_time (now : Z) (calls : list Call) : Sys :=
      {| this := holder; world := {| clock := now; wire := calls |} |} in
    let renewal := TokenCall (token_request (config (this s))) in
    (forall now calls, 0 <= now -> now < T - 60000 ->
       authenticate P (at_time now calls)
       = (Return (SophosTokenResponse.access_token tokenData), at_time now calls))
    /\ (forall now calls, T - 60000 <= now ->
          wire (world (snd (authenticate P (at_time now calls)))) = renewal :: calls)
    /\ (forall calls, 0 <= T - 61000 ->
          authenticate P (at_time (T - 61000) calls)
          = (Return (SophosTokenResponse.access_token tokenData),
             at_time (T - 61000) calls))
    /\ (forall calls,
          wire (world (snd (authenticate P (at_time (T - 59000) calls))))
          = renewal :: calls).
Proof.
  intros P s elapsed r tokenData Hc He Hok Hj Herr Hne t0 T holder at_time renewal.
  assert (Hholder :
            config holder = config (this s)
            /\ accessToken holder = Some (SophosTokenResponse.access_token tokenData)
            /\ tokenExpiresAt holder = Some (T - 60000)).
  { unfold holder. rewrite (authenticate_stores P s elapsed r tokenData Hc He Hok Hj Herr).
    simpl. repeat split. f_equal. unfold T, t0. lia. }
  destruct Hholder as (Hcfg & Htok & Hexp).
  assert (Hit : forall now calls, 0 <= now -> now < T - 60000 ->
                authenticate P (at_time now calls)
                = (Return (SophosTokenResponse.access_token tokenData), at_time now calls)).
  { intros now calls H0 Hlt. apply authenticate_cached. simpl.
    now apply cached_token_hit with (e := T - 60000). }
  assert (Miss : forall now calls, T - 60000 <= now ->
                 wire (world (snd (authenticate P (at_time now calls)))) = renewal :: calls).
  { intros now calls Hle. rewrite authenticate_exchanges.
    - simpl. unfold renewal. now rewrite Hcfg.
    - simpl. now apply cached_token_stale with (e := T - 60000). }
  repeat split.
  - exact Hit.
  - exact Miss.
  - intros calls H0. apply Hit; lia.
  - intros calls. apply Miss. lia.
Qed.

(** The boundary of C1 on a run: a token for 3600 s stored at 1,000,120 ms
    is reused at [T - 61 s] and renewed at [T - 59 s]. *)
Lemma authenticate_safety_margin_witness :
  let P := Scenario.healthy (Scenario.api_answer 200 "OK" Scenario.no_header None) in
  let s1 := snd (authenticate P (Scenario.start Scenario.credentials_only 1000000)) in
  let T := 1000120 + 3600 * 1000 in
  authenticate P {| this := this s1; world := {| clock := T - 61000; wire := [] |} |}
  = (Return "token-1",
     {| this := this s1; world := {| clock := T - 61000; wire := [] |} |})
  /\ wire (world (snd (authenticate P
        {| this := this s1; world := {| clock := T - 59000; wire := [] |} |})))
     = [TokenCall (token_request Scenario.credentials_only)].
Proof.
  intros P s1 T.
  destruct (authenticate_safety_margin P
              (Scenario.start Scenario.credentials_only 1000000) 120
              Scenario.token_granted (Scenario.token_body "token-1" 3600 None))
    as (_ & _ & Hreuse & Hrenew);
    try reflexivity.
  - discriminate.
  - split.
    + apply (Hreuse []). vm_compute. discriminate.
    + apply (Hrenew []).
Defined.

(** C5. When the token request of [authenticate] is aborted by the
    timeout ([fetch] rejects with an "AbortError"), [authenticate] throws a
    [SophosClientError] of the base class, not a [SophosAuthError]; it
    carries no status, and the client's fields stay as they were. *)
Theorem authenticate_timeout_is_ClientError :
  forall (P : Platform) (s : Sys) (elapsed : Z) (message : string),
    cached_token (this s) (clock (world s)) = None ->
    token_endpoint P (token_request (config (this s))) (world s)
    = (elapsed, Rejected "AbortError" message) ->
    exists (x : Thrown) (s' : Sys),
      authenticate P s = (Throw x, s')
      /\ instanceof_SophosClientError x = true
      /\ instanceof_SophosAuthError x = false
      /\ error_name x = "SophosClientError"
      /\ error_statusCode x = None
      /\ this s' = this s.
Proof.
  intros P s elapsed message Hc He.
  unfold authenticate. unfold_async. rewrite Hc, He. simpl.
  eexists. eexists. split; [reflexivity|]. simpl. auto.
Qed.

Lemma authenticate_timeout_is_ClientError_witness :
  let P := Scenario.platform (30000, Rejected "AbortError" "This operation was aborted")
             (80, Responded Scenario.whoami_answer)
             (50, Rejected "TypeError" "fetch failed") in
  exists (x : Thrown) (s' : Sys),
    authenticate P (Scenario.start Scenario.preconfigured 5000) = (Throw x, s')
    /\ instanceof_SophosClientError x = true
    /\ instanceof_SophosAuthError x = false
    /\ error_name x = "SophosClientError"
    /\ error_statusCode x = None
    /\ this s' = this (Scenario.start Scenario.preconfigured 5000).
Proof.
  intros P.
  apply (authenticate_timeout_is_ClientError P
           (Scenario.start Scenario.preconfigured 5000) 30000
           "This operation was aborted"); reflexivity.
Defined.

(** C8. When the token exchange answers with a success status and the
    parsed body holds an error code, [authenticate] throws a
    [SophosAuthError] (without a status, the HTTP status being a success)
    and stores nothing: token and expiry are what they were. *)
Theorem authenticate_error_in_body :
  forall (P : Platform) (s : Sys) (elapsed : Z)
         (r : Response SophosTokenResponse.t) (tokenData : SophosTokenResponse.t),
    cached_token (this s) (clock (world s)) = None ->
    token_endpoint P (token_request (config (this s))) (world s)
    = (elapsed, Responded r) ->
    ok r = true -> json r = Some tokenData ->
    Js.truthy_string (SophosTokenResponse.errorCode tokenData) = true ->
    exists (x : Thrown) (s' : Sys),
      authenticate P s = (Throw x, s')
      /\ instanceof_SophosAuthError x = true
      /\ error_statusCode x = None
      /\ accessToken (this s') = accessToken (this s)
      /\ tokenExpiresAt (this s') = tokenExpiresAt (this s).
Proof.
  intros P s elapsed r tokenData Hc He Hok Hj Herr.
  unfold authenticate. unfold_async. rewrite Hc, He. simpl.
  rewrite Hok. simpl. rewrite Hj. simpl. rewrite Herr.
  eexists. eexists. split; [reflexivity|]. simpl. auto.
Qed.

Lemma authenticate_error_in_body_witness :
  let P := Scenario.platform (120, Responded Scenario.token_refused_in_body)
             (80, Responded Scenario.whoami_answer)
             (50, Rejected "TypeError" "fetch failed") in
  exists (x : Thrown) (s' : Sys),
    authenticate P (Scenario.start Scenario.preconfigured 5000) = (Throw x, s')
    /\ instanceof_SophosAuthError x = true
    /\ error_statusCode x = None
    /\ accessToken (this s') = None
    /\ tokenExpiresAt (this s') = None.
Proof.
  intros P.
  apply (authenticate_error_in_body P
           (Scenario.start Scenario.preconfigured 5000) 120
           Scenario.token_refused_in_body
           (Scenario.token_body "" 0 (Some "customer.validation")));
    reflexivity.
Defined.

(* ====================================================================== *)
(** ** Tenant discovery *)
(* ====================================================================== *)

Section Discovery.

Variable P : Platform.

Lemma or_string_keeps (s d : string) :
  Js.truthy_string (Some s) = true -> Js.or_string (Some s) d = s.
Proof.
  simpl. intros H. destruct (s =? "")%string; [discriminate|reflexivity].
Qed.

Lemma or_string_fills (v : option string) (d : string) :
  Js.truthy_string v = false -> Js.or_string v d = d.
Proof.
  destruct v as [s|]; simpl; [|reflexivity].
  intros H. destruct (s =? "")%string; [reflexivity|discriminate].
Qed.

(** With both fields set, [discoverTenant] returns at its first line. *)
Lemma discoverTenant_resolved (s : Sys) :
  resolved (this s) = true -> discoverTenant P s = (Return tt, s).
Proof.
  unfold resolved, discoverTenant. unfold_async. intros H. now rewrite H.
Qed.

(** The step-by-step reading of a discovery that had to be made and
    returned normally. *)
Lemma discoverTenant_success (s s' : Sys) :
  resolved (this s) = false ->
  discoverTenant P s = (Return tt, s') ->
  exists token s1 elapsed r whoami,
    authenticate P s = (Return token, s1)
    /\ whoami_endpoint P (whoami_request (config (this s)) token) (world s1)
       = (elapsed, Responded r)
    /\ ok r = true
    /\ json r = Some whoami
    /\ dataRegionUrl (this s')
       = Some (Js.or_string (dataRegionUrl (this s1))
                 (SophosWhoamiResponse.dataRegion (SophosWhoamiResponse.apiHosts whoami)))
    /\ tenantId (this s')
       = Some (Js.or_string (tenantId (this s1)) (SophosWhoamiResponse.id whoami))
    /\ config (this s') = config (this s1)
    /\ accessToken (this s') = accessToken (this s1)
    /\ tokenExpiresAt (this s') = tokenExpiresAt (this s1).
Proof.
  unfold resolved, discoverTenant. unfold_async. intros Hres. rewrite Hres.
  destruct (authenticate P s) as [[token|x] s1] eqn:Ha; [|discriminate].
  destruct (whoami_endpoint P _ _) as [elapsed [name message|r]] eqn:Hw; simpl;
    [discriminate|].
  destruct (ok r) eqn:Hok; simpl; [|discriminate].
  destruct (json r) as [whoami|] eqn:Hj; simpl; [|discriminate].
  intros H. inversion H; subst; clear H. simpl.
  exists token, s1, elapsed, r, whoami. repeat split; auto.
Qed.

(** Whatever happens, [discoverTenant] keeps the configuration, makes at
    most one discovery call, and keeps a field that was set. *)
Lemma discoverTenant_frame (s : Sys) :
  let s' := snd (discoverTenant P s) in
  config (this s') = config (this s)
  /\ (Js.truthy_string (dataRegionUrl (this s)) = true ->
      dataRegionUrl (this s') = dataRegionUrl (this s))
  /\ (Js.truthy_string (tenantId (this s)) = true ->
      tenantId (this s') = tenantId (this s))
  /\ (discoveries (world s') <= S (discoveries (world s)))%nat.
Proof.
  unfold discoverTenant, discoveries. unfold_async.
  destruct (_ && _); simpl; [auto|].
  pose proof (authenticate_frame P s) as (Hc & Hd & Ht & Hn).
  unfold discoveries in Hn.
  destruct (authenticate P s) as [[token|x] s1]; simpl in *;
    [|rewrite Hn; auto].
  destruct (whoami_endpoint P _ _) as [elapsed [name message|r]]; simpl;
    [rewrite Hn; auto|].
  destruct (ok r); simpl; [|rewrite Hn; auto].
  destruct (json r) as [whoami|]; simpl; [|rewrite Hn; auto].
  rewrite Hn, Hd, Ht. repeat split; auto.
  - intros H. destruct (dataRegionUrl (this s)) as [u|]; [|discriminate].
    now rewrite or_string_keeps.
  - intros H. destruct (tenantId (this s)) as [u|]; [|discriminate].
    now rewrite or_string_keeps.
Qed.

End Discovery.

(** C7. When discovery succeeds, what was set before wins: a data-region
    URL or a tenant identifier that was non-empty before the call has the
    same value after it, and when the discovery call was made the fields
    that were empty hold the values of the whoami response. *)
Theorem discoverTenant_fills_gaps_only :
  forall (P : Platform) (s s' : Sys),
    discoverTenant P s = (Return tt, s') ->
    (Js.truthy_string (dataRegionUrl (this s)) = true ->
     dataRegionUrl (this s') = dataRegionUrl (this s))
    /\ (Js.truthy_string (tenantId (this s)) = true ->
        tenantId (this s') = tenantId (this s))
    /\ (resolved (this s) = false ->
        exists token s1 elapsed r whoami,
          authenticate P s = (Return token, s1)
          /\ whoami_endpoint P (whoami_request (config (this s)) token) (world s1)
             = (elapsed, Responded r)
          /\ json r = Some whoami
          /\ (Js.truthy_string (dataRegionUrl (this s)) = false ->
              dataRegionUrl (this s')
              = Some (SophosWhoamiResponse.dataRegion
                        (SophosWhoamiResponse.apiHosts whoami)))
          /\ (Js.truthy_string (tenantId (this s)) = false ->
              tenantId (this s') = Some (SophosWhoamiResponse.id whoami))).
Proof.
  intros P s s' H.
  pose proof (discoverTenant_frame P s) as (_ & Hd & Ht & _).
  rewrite H in Hd, Ht. simpl in Hd, Ht.
  repeat split; auto.
  intros Hres.
  destruct (discoverTenant_success P s s' Hres H)
    as (token & s1 & elapsed & r & whoami & Ha & Hw & _ & Hj & Hd' & Ht' & _).
  exists token, s1, elapsed, r, whoami.
  pose proof (authenticate_frame P s) as (_ & Hd1 & Ht1 & _).
  rewrite Ha in Hd1, Ht1. simpl in Hd1, Ht1.
  repeat split; auto.
  - intros Hf. rewrite Hd', Hd1. now rewrite or_string_fills.
  - intros Hf. rewrite Ht', Ht1. now rewrite or_string_fills.
Qed.

(** C7 on a run: the region is configured, the tenant is not; discovery
    keeps the configured region and takes the tenant from the response. *)
Lemma discoverTenant_fills_gaps_only_witness :
  let P := Scenario.healthy (Scenario.api_answer 200 "OK" Scenario.no_header None) in
  let s := Scenario.start Scenario.region_only 1000000 in
  let s' := snd (discoverTenant P s) in
  dataRegionUrl (this s') = Some "https://api-us03.central.sophos.com"
  /\ tenantId (this s') = Some "tenant-found".
Proof.
  intros P s s'.
  destruct (discoverTenant_fills_gaps_only P s s' eq_refl) as (Hd & _ & Hfill).
  split.
  - rewrite Hd; reflexivity.
  - destruct (Hfill eq_refl) as (token & s1 & elapsed & r & whoami & Ha & Hw & Hj & _ & Ht).
    rewrite (Ht eq_refl). vm_compute in Hw. inversion Hw; subst r.
    vm_compute in Hj. inversion Hj; subst whoami. reflexivity.
Defined.

(* ====================================================================== *)
(** ** How a failed resolution surfaces *)
(* ====================================================================== *)

Lemma authenticate_failure_classified (P : Platform) (s s' : Sys) (x : Thrown) :
  token_exchange_answers_or_times_out P ->
  authenticate P s = (Throw x, s') ->
  exists message statusCode,
    x = SophosClientError message statusCode \/ x = SophosAuthError message statusCode.
Proof.
  intros Hq. unfold authenticate. unfold_async.
  destruct (cached_token _ _); [discriminate|].
  specialize (Hq (token_request (config (this s))) (world s)).
  destruct (token_endpoint P _ _) as [elapsed [name message|r]]; simpl in *.
  - subst name. simpl. intros H. inversion H. eauto.
  - destruct (ok r); simpl.
    + destruct (json r) as [tokenData|]; simpl; [|now destruct Hq].
      destruct (Js.truthy_string _); intros H; inversion H. eauto.
    + intros H. inversion H. eauto.
Qed.

(** What [fetch] throws for another reason than the timeout is passed on
    by [authenticate] as it is. *)
Lemma authenticate_passes_on_network_failure (P : Platform) (s : Sys)
    (elapsed : Z) (name message : string) :
  cached_token (this s) (clock (world s)) = None ->
  token_endpoint P (token_request (config (this s))) (world s)
  = (elapsed, Rejected name message) ->
  name <> "AbortError" ->
  fst (authenticate P s) = Throw (Native name message).
Proof.
  intros Hc He Hname. unfold authenticate. unfold_async.
  rewrite Hc, He. simpl.
  destruct (String.eqb_spec name "AbortError"); [contradiction|reflexivity].
Qed.

(** C4, as the code has it.  Every failure of [discoverTenant] surfaces as
    a [SophosClientError] or a [SophosAuthError] when [fetch] itself is
    not rejected, except by the timeout of the token request, and the
    bodies of the success responses are JSON of the declared shape
    ([SophosTokenResponse], [SophosWhoamiResponse]); a success body of
    another shape, which makes the code throw a [TypeError] when it reads
    a member, is none of the answers considered.  What [fetch] throws for
    a network failure (anything but an "AbortError"), in the token
    exchange or in the discovery call, reaches the caller as it is. *)
Theorem discoverTenant_failure_classified :
  forall (P : Platform) (s : Sys),
    (token_exchange_answers_or_times_out P ->
     discovery_call_answers P ->
     forall (x : Thrown) (s' : Sys),
       discoverTenant P s = (Throw x, s') ->
       exists message statusCode,
         x = SophosClientError message statusCode
         \/ x = SophosAuthError message statusCode)
    /\ (forall elapsed name message,
          resolved (this s) = false ->
          cached_token (this s) (clock (world s)) = None ->
          token_endpoint P (token_request (config (this s))) (world s)
          = (elapsed, Rejected name message) ->
          name <> "AbortError" ->
          fst (discoverTenant P s) = Throw (Native name message))
    /\ (forall token s1 elapsed name message,
          resolved (this s) = false ->
          authenticate P s = (Return token, s1) ->
          whoami_endpoint P (whoami_request (config (this s)) token) (world s1)
          = (elapsed, Rejected name message) ->
          name <> "AbortError" ->
          fst (discoverTenant P s) = Throw (Native name message)).
Proof.
  intros P s. split; [|split].
  - intros Htok Hwho x s'. unfold discoverTenant. unfold_async.
    destruct (_ && _); [discriminate|].
    destruct (authenticate P s) as [[token|y] s1] eqn:Ha.
    + specialize (Hwho (whoami_request (config (this s)) token) (world s1)).
      destruct (whoami_endpoint P _ _) as [elapsed [name message|r]]; simpl in *;
        [contradiction|].
      destruct (ok r); simpl.
      * destruct (json r) as [whoami|]; simpl; [discriminate|now destruct Hwho].
      * intros H. inversion H. eauto.
    + intros H. inversion H; subst.
      eapply authenticate_failure_classified; eauto.
  - intros elapsed name message Hres Hc He Hname.
    pose proof (authenticate_passes_on_network_failure P s elapsed name message
                  Hc He Hname) as Ha.
    unfold resolved in Hres. unfold discoverTenant. unfold_async. rewrite Hres.
    destruct (authenticate P s) as [[token|y] s1]; simpl in *; congruence.
  - intros token s1 elapsed name message Hres Ha Hw Hname.
    unfold resolved in Hres. unfold discoverTenant. unfold_async.
    rewrite Hres, Ha, Hw. reflexivity.
Qed.

(** A failed discovery call (503) is a [SophosClientError] with the status. *)
Lemma discoverTenant_failure_classified_witness :
  let P := Scenario.platform (120, Responded Scenario.token_granted)
             (80, Responded Scenario.whoami_unavailable)
             (50, Rejected "TypeError" "fetch failed") in
  fst (discoverTenant P (Scenario.start Scenario.credentials_only 1000000))
  = Throw (SophosClientError "Tenant discovery failed (503)" (Some 503))
  /\ exists message statusCode,
       SophosClientError "Tenant discovery failed (503)" (Some 503)
       = SophosClientError message statusCode
       \/ SophosClientError "Tenant discovery failed (503)" (Some 503)
          = SophosAuthError message statusCode.
Proof.
  intros P. split; [reflexivity|].
  destruct (discoverTenant_failure_classified P
              (Scenario.start Scenario.credentials_only 1000000)) as [H _].
  eapply H.
  - intros rq w. simpl. discriminate.
  - intros rq w. simpl. discriminate.
  - reflexivity.
Defined.

(** C4 as stated fails: a network failure of the token exchange inside
    [discoverTenant] reaches the caller as the [TypeError] that [fetch]
    threw, which is neither a [SophosClientError] nor a [SophosAuthError]. *)
Lemma discoverTenant_network_failure_surfaces_raw :
  let P := Scenario.platform (15, Rejected "TypeError" "fetch failed")
             (80, Responded Scenario.whoami_answer)
             (50, Rejected "TypeError" "fetch failed") in
  fst (discoverTenant P (Scenario.start Scenario.credentials_only 1000000))
  = Throw (Native "TypeError" "fetch failed")
  /\ instanceof_SophosClientError (Native "TypeError" "fetch failed") = false
  /\ instanceof_SophosAuthError (Native "TypeError" "fetch failed") = false.
Proof. repeat split. Qed.

(** The discovery call is the one [fetch] whose [catch] does not look for
    an "AbortError": when the timeout aborts it, the caller gets the
    platform's "AbortError" itself, where the timeouts of the token
    request and of the data request give a [SophosClientError]. *)
Lemma discoverTenant_timeout_surfaces_AbortError :
  let P := Scenario.platform (120, Responded Scenario.token_granted)
             (30000, Rejected "AbortError" "This operation was aborted")
             (50, Rejected "TypeError" "fetch failed") in
  let Q := Scenario.platform (120, Responded Scenario.token_granted)
             (80, Responded Scenario.whoami_answer)
             (30000, Rejected "AbortError" "This operation was aborted") in
  fst (discoverTenant P (Scenario.start Scenario.credentials_only 1000000))
  = Throw (Native "AbortError" "This operation was aborted")
  /\ fst (request Q "GET" "/common/v1/alerts" None None false
            (Scenario.start Scenario.credentials_only 1000000))
     = Throw (SophosClientError "Sophos Central API timeout after 30000ms" None).
Proof. split; reflexivity. Qed.

(* ====================================================================== *)
(** ** The request dispatcher *)
(* ====================================================================== *)

Section Dispatcher.

Variable P : Platform.

Lemma follows_refl (w : list Call) : follows w w.
Proof. now exists []. Qed.


Lemma follows_cons (a b : list Call) (c : Call) : follows a b -> follows a (c :: b).
Proof. intros [x ->]. now exists (c :: x). Qed.


Lemma authenticate_api_requests (s : Sys) :
  api_requests (wire (world (snd (authenticate P s)))) = api_requests (wire (world s)).
Proof.
  destruct (cached_token (this s) (clock (world s))) as [token|] eqn:Hc.
  - now rewrite (authenticate_cached P s token Hc).
  - now rewrite authenticate_exchanges by assumption.
Qed.

(** The calls of a discovery that has to be made come after those of the
    [authenticate] it starts with; none of them goes to the resource API. *)
Lemma discoverTenant_calls (s : Sys) :
  resolved (this s) = false ->
  follows (wire (world (snd (authenticate P s))))
          (wire (world (snd (discoverTenant P s))))
  /\ api_requests (wire (world (snd (discoverTenant P s))))
     = api_requests (wire (world s)).
Proof.
  intros Hres. pose proof (authenticate_api_requests s) as Hapi. revert Hapi.
  unfold resolved in Hres. unfold discoverTenant. unfold_async. rewrite Hres.
  destruct (authenticate P s) as [[token|x] s1]; simpl;
    [|intros ->; split; [apply follows_refl|reflexivity]].
  destruct (whoami_endpoint P _ _) as [elapsed [name message|r]]; simpl.
  - intros ->. split; [apply follows_cons, follows_refl|reflexivity].
  - destruct (ok r); simpl.
    + destruct (json r); simpl; intros ->;
        (split; [apply follows_cons, follows_refl|reflexivity]).
    + intros ->. split; [apply follows_cons, follows_refl|reflexivity].
Qed.

Lemma with_params_href (u : Url) (params : option Params) :
  href (with_params u params) = href u.
Proof.
  destruct params as [entries|]; [|reflexivity]. simpl.
  revert u. induction entries as [|[key [v|]] rest IH]; intros u; simpl.
  - reflexivity.
  - now rewrite IH.
  - apply IH.
Qed.

(** What [dispatch] leaves behind, whatever its outcome: the
    configuration and the fields of the region that were set are kept; no
    discovery call is made once both are set; at most one request goes to
    the resource API, with the given method, to the global host when the
    flag is set and to the data region otherwise. *)
Lemma dispatch_frame (verb endpoint : string) (params : option Params)
    (body : option Json) (useGlobalUrl : bool) (s : Sys) :
  let s' := snd (dispatch P verb endpoint params body useGlobalUrl s) in
  config (this s') = config (this s)
  /\ (Js.truthy_string (dataRegionUrl (this s)) = true ->
      dataRegionUrl (this s') = dataRegionUrl (this s))
  /\ (Js.truthy_string (tenantId (this s)) = true ->
      tenantId (this s') = tenantId (this s))
  /\ (resolved (this s) = true ->
      discoveries (world s') = discoveries (world s))
  /\ (api_requests (wire (world s')) = api_requests (wire (world s))
      \/ exists rq,
           api_requests (wire (world s')) = rq :: api_requests (wire (world s))
           /\ href (url rq)
              = (if useGlobalUrl then SophosConfig.globalUrl (config (this s'))
                 else Js.interpolate (dataRegionUrl (this s'))) ++ endpoint
           /\ method rq = verb).
Proof.
  pose proof (discoverTenant_frame P s) as (Hc0 & Hd0 & Ht0 & _).
  assert (Hn0 : resolved (this s) = true ->
                discoveries (world (snd (discoverTenant P s))) = discoveries (world s)).
  { intros H. now rewrite (discoverTenant_resolved P s H). }
  assert (Ha0 : api_requests (wire (world (snd (discoverTenant P s))))
                = api_requests (wire (world s))).
  { destruct (resolved (this s)) eqn:H.
    - now rewrite (discoverTenant_resolved P s H).
    - now apply discoverTenant_calls. }
  unfold dispatch. unfold_async.
  destruct (discoverTenant P s) as [[[]|x] s0]; simpl in *;
    [|repeat split; auto].
  pose proof (authenticate_frame P s0) as (Hc1 & Hd1 & Ht1 & Hn1).
  pose proof (authenticate_api_requests s0) as Ha1.
  destruct (authenticate P s0) as [[token|x] s1]; simpl in *.
  - destruct (URL_parses P _); simpl.
    + destruct (resource_api P _ _) as [elapsed result]; simpl.
      repeat split.
      * congruence.
      * intros H. rewrite Hd1. auto.
      * intros H. rewrite Ht1. auto.
      * intros H. unfold discoveries in *. simpl. rewrite Hn1. auto.
      * right. eexists. split; [rewrite Ha1, Ha0; reflexivity|].
        simpl. rewrite with_params_href. simpl. auto.
    + repeat split; try congruence.
      * intros H. rewrite Hd1. auto.
      * intros H. rewrite Ht1. auto.
      * intros H. rewrite Hn1. auto.
      * left. congruence.
  - repeat split; try congruence.
    + intros H. rewrite Hd1. auto.
    + intros H. rewrite Ht1. auto.
    + intros H. rewrite Hn1. auto.
    + left. congruence.
Qed.

(** The second half of [request] leaves the world and everything but the
    token cache as [dispatch] left them. *)
Lemma request_after_dispatch (verb endpoint : string) (params : option Params)
    (body : option Json) (useGlobalUrl : bool) (s : Sys) :
  let s1 := snd (dispatch P verb endpoint params body useGlobalUrl s) in
  let s2 := snd (request P verb endpoint params body useGlobalUrl s) in
  world s2 = world s1
  /\ config (this s2) = config (this s1)
  /\ dataRegionUrl (this s2) = dataRegionUrl (this s1)
  /\ tenantId (this s2) = tenantId (this s1).
Proof.
  unfold request, handleErrorResponse. unfold_async.
  destruct (dispatch P verb endpoint params body useGlobalUrl s)
    as [[[name message|r]|x] s1]; simpl.
  - destruct (name =? "AbortError")%string; simpl; auto.
  - destruct (ok r); simpl.
    + destruct (status r =? 204); simpl; auto.
      destruct (json r); simpl; auto.
    + destruct ((status r =? 401) || (status r =? 403)); simpl; auto.
      destruct (status r =? 429); simpl; auto.
  - auto.
Qed.

Lemma request_frame (verb endpoint : string) (params : option Params)
    (body : option Json) (useGlobalUrl : bool) (s : Sys) :
  resolved (this s) = true ->
  let s' := snd (request P verb endpoint params body useGlobalUrl s) in
  config (this s') = config (this s)
  /\ dataRegionUrl (this s') = dataRegionUrl (this s)
  /\ tenantId (this s') = tenantId (this s)
  /\ discoveries (world s') = discoveries (world s).
Proof.
  intros Hres.
  pose proof (dispatch_frame verb endpoint params body useGlobalUrl s)
    as (Hc & Hd & Ht & Hn & _).
  pose proof (request_after_dispatch verb endpoint params body useGlobalUrl s)
    as (Hw & Hc' & Hd' & Ht').
  unfold resolved in Hres. apply andb_prop in Hres as [Hr1 Hr2].
  simpl in *. unfold discoveries in *. rewrite Hw, Hc', Hd', Ht'.
  repeat split; auto.
  apply Hn. unfold resolved. now rewrite Hr1, Hr2.
Qed.

(** A caller cannot make a resolved client discover again. *)
Lemma run_frame (l : list Invocation) :
  forall s : Sys,
    resolved (this s) = true ->
    config (this (run P l s)) = config (this s)
    /\ dataRegionUrl (this (run P l s)) = dataRegionUrl (this s)
    /\ tenantId (this (run P l s)) = tenantId (this s)
    /\ discoveries (world (run P l s)) = discoveries (world s).
Proof.
  induction l as [|i rest IH]; intros s Hres; simpl; [auto|].
  pose proof (request_frame (inv_method i) (inv_endpoint i) (inv_params i)
                (inv_body i) (inv_useGlobalUrl i) (elapse (after i) s) Hres)
    as (Hc & Hd & Ht & Hn).
  simpl in *.
  destruct (IH (snd (request P (inv_method i) (inv_endpoint i) (inv_params i)
                       (inv_body i) (inv_useGlobalUrl i) (elapse (after i) s))))
    as (Hc' & Hd' & Ht' & Hn').
  - unfold resolved in *. now rewrite Hd, Ht.
  - rewrite Hc', Hd', Ht', Hn'. auto.
Qed.



End Dispatcher.

(** A client constructed with both values configured is resolved. *)
Lemma constructor_resolved (cfg : SophosConfig.t) :
  Js.truthy_string (SophosConfig.apiUrl cfg) = true ->
  Js.truthy_string (SophosConfig.tenantId cfg) = true ->
  resolved (constructor cfg) = true.
Proof. unfold resolved. simpl. now intros -> ->. Qed.

(** A discovery that returns leaves the client resolved when the whoami
    response names a tenant and a data region. *)
Lemma discoverTenant_resolves (P : Platform) (s s' : Sys) :
  (forall rq w elapsed r whoami,
      whoami_endpoint P rq w = (elapsed, Responded r) ->
      json r = Some whoami ->
      SophosWhoamiResponse.id whoami <> ""
      /\ SophosWhoamiResponse.dataRegion (SophosWhoamiResponse.apiHosts whoami) <> "") ->
  discoverTenant P s = (Return tt, s') ->
  resolved (this s') = true.
Proof.
  intros Hwho Hrun.
  destruct (resolved (this s)) eqn:Hres.
  - rewrite (discoverTenant_resolved P s Hres) in Hrun. now inversion Hrun; subst.
  - destruct (discoverTenant_success P s s' Hres Hrun)
      as (token & s1 & elapsed & r & whoami & _ & Hw & _ & Hj & Hd & Ht & _).
    destruct (Hwho _ _ _ _ _ Hw Hj) as [Hid Hdr].
    assert (Hor : forall a b, b <> "" ->
                  Js.truthy_string (Some (Js.or_string a b)) = true).
    { intros [a|] b Hb; simpl.
      - destruct (String.eqb_spec a ""); simpl.
        + now destruct (String.eqb_spec b "").
        + now destruct (String.eqb_spec a "").
      - now destruct (String.eqb_spec b ""). }
    unfold resolved. rewrite Hd, Ht. now rewrite !Hor.
Qed.

(** C6, as the code has it.  Once the data-region URL and the tenant
    identifier are both non-empty, [discoverTenant] returns without doing
    anything, and no sequence of requests, whatever they are, whenever
    they are made and however they end, calls the discovery endpoint
    again: the count of discovery calls stays what it was and the two
    fields keep their values.  Until then discovery is not over: a client
    with an empty field calls the discovery endpoint each time
    [discoverTenant] runs and its authentication succeeds. *)
Theorem discovery_never_repeated :
  forall (P : Platform) (s : Sys),
    (resolved (this s) = true ->
     discoverTenant P s = (Return tt, s)
     /\ forall l : list Invocation,
          discoveries (world (run P l s)) = discoveries (world s)
          /\ resolved (this (run P l s)) = true
          /\ dataRegionUrl (this (run P l s)) = dataRegionUrl (this s)
          /\ tenantId (this (run P l s)) = tenantId (this s))
    /\ (resolved (this s) = false ->
        forall (token : string) (s1 : Sys),
          authenticate P s = (Return token, s1) ->
          discoveries (world (snd (discoverTenant P s)))
          = S (discoveries (world s))).
Proof.
  intros P s. split.
  - intros Hres. split; [now apply discoverTenant_resolved|].
    intros l. destruct (run_frame P l s Hres) as (_ & Hd & Ht & Hn).
    repeat split; auto.
    unfold resolved in *. now rewrite Hd, Ht.
  - intros Hres token s1 Ha.
    pose proof (authenticate_frame P s) as (_ & _ & _ & Hn).
    rewrite Ha in Hn. simpl in Hn. rewrite <- Hn.
    unfold resolved in Hres. unfold discoverTenant, discoveries. unfold_async.
    rewrite Hres, Ha. simpl.
    destruct (whoami_endpoint P _ _) as [elapsed [name message|r]]; simpl;
      [reflexivity|].
    destruct (ok r); simpl; [|reflexivity].
    destruct (json r); reflexivity.
Qed.

(** C6 on a run: a client with credentials only makes one request, which
    discovers the tenant; nine more requests, an hour apart so that the
    token is renewed each time, leave the count of discovery calls at 1. *)
Lemma discovery_never_repeated_witness :
  let P := Scenario.healthy
             (Scenario.api_answer 200 "OK" Scenario.no_header (Some (JObject []))) in
  let call := {| after := 3600000; inv_method := "GET";
                 inv_endpoint := "/common/v1/alerts"; inv_params := None;
                 inv_body := None; inv_useGlobalUrl := false |} in
  let s0 := Scenario.start Scenario.credentials_only 1000000 in
  discoveries (world (run P [call] s0)) = 1%nat
  /\ discoveries (world (run P (repeat call 9) (run P [call] s0))) = 1%nat.
Proof.
  intros P call s0.
  assert (Hres : resolved (this (run P [call] s0)) = true)
    by (vm_compute; reflexivity).
  assert (Hone : discoveries (world (run P [call] s0)) = 1%nat)
    by (vm_compute; reflexivity).
  destruct (discovery_never_repeated P (run P [call] s0)) as [Hresolved _].
  destruct (Hresolved Hres) as [_ H].
  destruct (H (repeat call 9)) as [Hn _].
  split; [exact Hone|]. rewrite Hn. exact Hone.
Defined.

(** C6 as stated fails: discovery can happen more than once for one
    client.  The discovery endpoint answers 503 to the first call and 200
    afterwards; the first request fails in discovery, the second one
    discovers again: two discovery calls. *)
Lemma discovery_repeated_after_failure :
  let P := {| token_endpoint := fun _ _ => (120, Responded Scenario.token_granted);
              whoami_endpoint :=
                fun _ w =>
                  if (discoveries w =? 0)%nat
                  then (80, Responded Scenario.whoami_unavailable)
                  else (80, Responded Scenario.whoami_answer);
              resource_api :=
                fun _ _ =>
                  (50, Responded (Scenario.api_answer 200 "OK" Scenario.no_header
                                    (Some (JObject []))));
              URL_parses := fun _ => true |} in
  let call := {| after := 1000; inv_method := "GET";
                 inv_endpoint := "/common/v1/alerts"; inv_params := None;
                 inv_body := None; inv_useGlobalUrl := false |} in
  let s0 := Scenario.start Scenario.credentials_only 1000000 in
  fst (request P "GET" "/common/v1/alerts" None None false (elapse 1000 s0))
  = Throw (SophosClientError "Tenant discovery failed (503)" (Some 503))
  /\ discoveries (world (run P [call] s0)) = 1%nat
  /\ discoveries (world (run P [call; call] s0)) = 2%nat
  /\ ~ (discoveries (world (run P [call; call] s0)) <= 1)%nat.
Proof.
  intros P call s0.
  assert (H2 : discoveries (world (run P [call; call] s0)) = 2%nat)
    by (vm_compute; reflexivity).
  repeat split; try (vm_compute; reflexivity).
  rewrite H2. lia.
Qed.

(** C9. Handling a 401 or 403 changes the token and its expiry and
    nothing else: the configuration, the data-region URL, the tenant
    identifier and the world are as before; so, if the region was resolved,
    whatever requests follow (and re-authenticate) make no discovery
    call. *)
Theorem handleErrorResponse_touches_token_cache_only :
  forall (P : Platform) (r : Response Json) (s : Sys),
    status r = 401 \/ status r = 403 ->
    let s' := snd (handleErrorResponse r s) in
    accessToken (this s') = None
    /\ tokenExpiresAt (this s') = None
    /\ config (this s') = config (this s)
    /\ dataRegionUrl (this s') = dataRegionUrl (this s)
    /\ tenantId (this s') = tenantId (this s)
    /\ world s' = world s
    /\ (resolved (this s) = true ->
        forall l : list Invocation,
          discoveries (world (run P l s')) = discoveries (world s)).
Proof.
  intros P r s Hst. unfold handleErrorResponse. unfold_async.
  assert (Hb : (status r =? 401) || (status r =? 403) = true).
  { destruct Hst as [-> | ->]; reflexivity. }
  rewrite Hb. simpl. repeat split.
  intros Hres l.
  now destruct (run_frame P l
                  {| this := {| config := config (this s); accessToken := None;
                                tokenExpiresAt := None;
                                dataRegionUrl := dataRegionUrl (this s);
                                tenantId := tenantId (this s) |};
                     world := world s |} Hres) as (_ & _ & _ & ->).
Qed.

Lemma handleErrorResponse_touches_token_cache_only_witness :
  let P := Scenario.healthy (Scenario.api_answer 200 "OK" Scenario.no_header None) in
  let r := Scenario.api_answer 403 "Forbidden" Scenario.no_header None in
  let s := {| this := {| config := Scenario.preconfigured;
                         accessToken := Some "token-0";
                         tokenExpiresAt := Some 9000000;
                         dataRegionUrl := Some "https://api-us03.central.sophos.com";
                         tenantId := Some "tenant-cfg" |};
              world := {| clock := 1000000; wire := [] |} |} in
  let s' := snd (handleErrorResponse r s) in
  accessToken (this s') = None
  /\ tokenExpiresAt (this s') = None
  /\ dataRegionUrl (this s') = Some "https://api-us03.central.sophos.com"
  /\ tenantId (this s') = Some "tenant-cfg"
  /\ config (this s') = Scenario.preconfigured.
Proof.
  intros P r s s'.
  destruct (handleErrorResponse_touches_token_cache_only P r s (or_intror eq_refl))
    as (Ha & He & Hc & Hd & Ht & _).
  repeat split; assumption.
Defined.




(** C3. For every request that was dispatched and answered with status
    429, [request] throws a [SophosRateLimitError] whose status code is
    429; with a [Retry-After] header of value "30" its [retryAfter] is 30,
    and without the header it is undefined.  The client's state is what
    [dispatch] left. *)
Theorem request_429_rate_limit :
  forall (P : Platform) (verb endpoint : string) (params : option Params)
         (body : option Json) (useGlobalUrl : bool) (s s1 : Sys) (r : Response Json),
    dispatch P verb endpoint params body useGlobalUrl s = (Return (Responded r), s1) ->
    status r = 429 ->
    exists x : Thrown,
      request P verb endpoint params body useGlobalUrl s = (Throw x, s1)
      /\ instanceof_SophosRateLimitError x = true
      /\ error_name x = "SophosRateLimitError"
      /\ error_statusCode x = Some 429
      /\ (headers_get r "Retry-After" = Some "30" ->
          error_retryAfter x = Some (Js.Num 30))
      /\ (headers_get r "Retry-After" = None -> error_retryAfter x = None).
Proof.
  intros P verb endpoint params body useGlobalUrl s s1 r Hd Hst.
  unfold request, handleErrorResponse. unfold_async.
  rewrite Hd. simpl. unfold ok. rewrite Hst. simpl.
  destruct s1 as [c w]. simpl.
  eexists. split; [reflexivity|]. simpl. repeat split.
  - intros ->. reflexivity.
  - intros ->. reflexivity.
Qed.

(** C3 on a run: 429 with [Retry-After: 30]. *)
Lemma request_429_rate_limit_witness :
  let P := Scenario.healthy
             (Scenario.api_answer 429 "Too Many Requests" Scenario.retry_after_30
                (Some (JObject [("error", JString "TooManyRequests")]))) in
  let s := Scenario.start Scenario.preconfigured 1000000 in
  exists x : Thrown,
    fst (request P "GET" "/common/v1/alerts" None None false s) = Throw x
    /\ error_statusCode x = Some 429
    /\ error_retryAfter x = Some (Js.Num 30).
Proof.
  intros P s.
  destruct (request_429_rate_limit P "GET" "/common/v1/alerts" None None false s
              (snd (dispatch P "GET" "/common/v1/alerts" None None false s))
              (Scenario.api_answer 429 "Too Many Requests" Scenario.retry_after_30
                 (Some (JObject [("error", JString "TooManyRequests")])))
              eq_refl eq_refl)
    as (x & Hreq & _ & _ & Hsc & Hra & _).
  exists x. rewrite Hreq. repeat split; auto.
Defined.

(* ====================================================================== *)
(** ** End to end *)
(* ====================================================================== *)

(** Credentials only: the first data call makes the token exchange, the
    discovery call and the data call; a second one a minute later makes
    the data call only; a third one after the token has expired makes the
    token exchange and the data call, and no discovery. *)
Example three_data_calls :
  let P := Scenario.healthy
             (Scenario.api_answer 200 "OK" Scenario.no_header (Some (JObject []))) in
  let call (ms : Z) := {| after := ms; inv_method := "GET";
                          inv_endpoint := "/common/v1/alerts"; inv_params := None;
                          inv_body := None; inv_useGlobalUrl := false |} in
  let kind (c : Call) :=
    match c with
    | TokenCall _ => "token"
    | WhoamiCall _ => "whoami"
    | ApiCall _ => "data"
    end in
  let s0 := Scenario.start Scenario.credentials_only 1000000 in
  map kind (wire (world (run P [call 0] s0))) = ["data"; "whoami"; "token"]
  /\ map kind (wire (world (run P [call 0; call 60000] s0)))
     = ["data"; "data"; "whoami"; "token"]
  /\ map kind (wire (world (run P [call 0; call 60000; call 3600000] s0)))
     = ["data"; "token"; "data"; "data"; "whoami"; "token"].
Proof. repeat split; vm_compute; reflexivity. Qed.

(* ====================================================================== *)
(** ** More on the token cache *)
(* ====================================================================== *)

(** X1. A failed [authenticate] leaves the client as it was: the cache is
    neither filled nor cleared, whatever the failure. *)
Theorem authenticate_failure_keeps_client :
  forall (P : Platform) (s s' : Sys) (x : Thrown),
    authenticate P s = (Throw x, s') -> this s' = this s.
Proof.
  intros P s s' x. unfold authenticate. unfold_async.
  destruct (cached_token _ _); [discriminate|].
  destruct (token_endpoint P _ _) as [elapsed [name message|r]]; simpl.
  - destruct (name =? "AbortError")%string; intros H; now inversion H.
  - destruct (ok r); simpl.
    + destruct (json r) as [tokenData|]; simpl.
      * destruct (Js.truthy_string _); intros H; now inversion H.
      * intros H; now inversion H.
    + intros H; now inversion H.
Qed.

Lemma authenticate_failure_keeps_client_witness :
  let P := Scenario.platform (90, Responded Scenario.token_denied)
             (80, Responded Scenario.whoami_answer)
             (50, Rejected "TypeError" "fetch failed") in
  this (snd (authenticate P (Scenario.warm 2000000 2000000)))
  = this (Scenario.warm 2000000 2000000).
Proof.
  intros P.
  apply (authenticate_failure_keeps_client P (Scenario.warm 2000000 2000000) _
           (SophosAuthError "OAuth2 authentication failed (401): invalid_client"
              (Some 401))).
  reflexivity.
Defined.

(** X2. A token exchange answered with a status outside 200..299 throws a
    [SophosAuthError] with that status; its message ends with the text of
    the body, or with "Unknown error" when the body cannot be read. *)
Theorem authenticate_rejected_status :
  forall (P : Platform) (s : Sys) (elapsed : Z) (r : Response SophosTokenResponse.t),
    cached_token (this s) (clock (world s)) = None ->
    token_endpoint P (token_request (config (this s))) (world s)
    = (elapsed, Responded r) ->
    ok r = false ->
    exists x : Thrown,
      fst (authenticate P s) = Throw x
      /\ instanceof_SophosAuthError x = true
      /\ error_statusCode x = Some (status r)
      /\ error_message x
         = "OAuth2 authentication failed (" ++ Js.String_of_number (status r) ++ "): "
             ++ match text r with Some t => t | None => "Unknown error" end.
Proof.
  intros P s elapsed r Hc He Hok. unfold authenticate. unfold_async.
  rewrite Hc, He. simpl. rewrite Hok. simpl.
  eexists. split; [reflexivity|]. simpl. auto.
Qed.

Lemma authenticate_rejected_status_witness :
  let P := Scenario.platform (90, Responded Scenario.token_denied)
             (80, Responded Scenario.whoami_answer)
             (50, Rejected "TypeError" "fetch failed") in
  exists x : Thrown,
    fst (authenticate P (Scenario.start Scenario.preconfigured 5000)) = Throw x
    /\ instanceof_SophosAuthError x = true
    /\ error_statusCode x = Some 401
    /\ error_message x = "OAuth2 authentication failed (401): invalid_client".
Proof.
  intros P.
  apply (authenticate_rejected_status P (Scenario.start Scenario.preconfigured 5000)
           90 Scenario.token_denied); reflexivity.
Defined.

(** X3. The token [authenticate] returns is the one the cache holds
    afterwards, and it is not expired at that time: either it was served
    from the cache, before its stored expiry, or it was just obtained and
    the stored expiry is the time of storing plus its lifetime less 60
    seconds. *)
Theorem authenticate_returns_cached_token :
  forall (P : Platform) (s s' : Sys) (token : string),
    authenticate P s = (Return token, s') ->
    accessToken (this s') = Some token
    /\ exists expiresAt : Z,
         tokenExpiresAt (this s') = Some expiresAt
         /\ ((s' = s /\ clock (world s') < expiresAt)
             \/ exists elapsed r tokenData,
                  token_endpoint P (token_request (config (this s))) (world s)
                  = (elapsed, Responded r)
                  /\ json r = Some tokenData
                  /\ token = SophosTokenResponse.access_token tokenData
                  /\ expiresAt
                     = clock (world s')
                       + (SophosTokenResponse.expires_in tokenData - 60) * 1000).
Proof.
  intros P s s' token. unfold authenticate. unfold_async.
  destruct (cached_token (this s) (clock (world s))) as [cached|] eqn:Hc.
  - intros H. inversion H; subst. clear H.
    unfold cached_token in Hc.
    destruct (accessToken (this s')) as [t|]; [|discriminate].
    destruct (tokenExpiresAt (this s')) as [e|]; [|discriminate].
    destruct (Js.truthy_string (Some t) && Js.truthy_number (Some e)
              && (clock (world s') <? e)) eqn:Hb; [|discriminate].
    inversion Hc; subst. split; [reflexivity|].
    exists e. split; [reflexivity|]. left. split; [reflexivity|].
    apply andb_prop in Hb as [_ Hlt]. now apply Z.ltb_lt.
  - destruct (token_endpoint P _ _) as [elapsed [name message|r]] eqn:He; simpl.
    + destruct (name =? "AbortError")%string; discriminate.
    + destruct (ok r); simpl; [|discriminate].
      destruct (json r) as [tokenData|] eqn:Hj; simpl; [|discriminate].
      destruct (Js.truthy_string _); [discriminate|].
      intros H. inversion H; subst. clear H. simpl.
      split; [reflexivity|]. eexists. split; [reflexivity|].
      right. exists elapsed, r, tokenData. auto.
Qed.

Lemma authenticate_returns_cached_token_witness :
  let P := Scenario.healthy (Scenario.api_answer 200 "OK" Scenario.no_header None) in
  let s' := snd (authenticate P (Scenario.start Scenario.credentials_only 1000000)) in
  accessToken (this s') = Some "token-1"
  /\ tokenExpiresAt (this s') = Some 4540120.
Proof.
  intros P s'.
  destruct (authenticate_returns_cached_token P
              (Scenario.start Scenario.credentials_only 1000000) s' "token-1" eq_refl)
    as (Ha & e & He & _).
  split; [exact Ha|reflexivity].
Defined.

(** X4. A token whose reported lifetime is 60 seconds or less is never served
    from the cache: any later [authenticate] makes the exchange again. *)
Theorem short_lived_token_never_reused :
  forall (P : Platform) (s : Sys) (elapsed : Z)
         (r : Response SophosTokenResponse.t) (tokenData : SophosTokenResponse.t),
    cached_token (this s) (clock (world s)) = None ->
    token_endpoint P (token_request (config (this s))) (world s)
    = (elapsed, Responded r) ->
    ok r = true -> json r = Some tokenData ->
    Js.truthy_string (SophosTokenResponse.errorCode tokenData) = false ->
    SophosTokenResponse.expires_in tokenData <= 60 ->
    forall (now : Z) (calls : list Call),
      clock (world s) + elapsed <= now ->
      wire (world (snd (authenticate P
                          {| this := this (snd (authenticate P s));
                             world := {| clock := now; wire := calls |} |})))
      = TokenCall (token_request (config (this s))) :: calls.
Proof.
  intros P s elapsed r tokenData Hc He Hok Hj Herr Hshort now calls Hnow.
  rewrite (authenticate_stores P s elapsed r tokenData Hc He Hok Hj Herr). simpl.
  rewrite authenticate_exchanges; [reflexivity|]. simpl.
  eapply cached_token_stale; [reflexivity|]. lia.
Qed.

Lemma short_lived_token_never_reused_witness :
  let P := Scenario.platform (120, Responded Scenario.token_short_lived)
             (80, Responded Scenario.whoami_answer)
             (50, Rejected "TypeError" "fetch failed") in
  let s := Scenario.start Scenario.preconfigured 1000000 in
  wire (world (snd (authenticate P
                      {| this := this (snd (authenticate P s));
                         world := {| clock := 1000120; wire := [] |} |})))
  = [TokenCall (token_request Scenario.preconfigured)].
Proof.
  intros P s.
  apply (short_lived_token_never_reused P s 120 Scenario.token_short_lived
           (Scenario.token_body "token-s" 45 None));
    try reflexivity; vm_compute; discriminate.
Defined.

(* ====================================================================== *)
(** ** More on the dispatcher *)
(* ====================================================================== *)

(** What a [dispatch] that got as far as an answer has done: after the
    calls of resolution and authentication (none of them to the resource
    API), one request was sent, built from the token, the region and the
    arguments. *)
Lemma dispatch_sends (P : Platform) (verb endpoint : string) (params : option Params)
    (body : option Json) (useGlobalUrl : bool) (s s1 : Sys) (result : FetchResult Json) :
  dispatch P verb endpoint params body useGlobalUrl s = (Return result, s1) ->
  exists (token : string) (sa : Sys) (elapsed : Z) (rq : Request),
    authenticate P (snd (discoverTenant P s)) = (Return token, sa)
    /\ this s1 = this sa
    /\ world s1 = {| clock := clock (world sa) + elapsed;
                     wire := ApiCall rq :: wire (world sa) |}
    /\ resource_api P rq (world sa) = (elapsed, result)
    /\ URL_parses P (href (url rq)) = true
    /\ href (url rq)
       = (if useGlobalUrl then SophosConfig.globalUrl (config (this s1))
          else Js.interpolate (dataRegionUrl (this s1))) ++ endpoint
    /\ searchParams (url rq)
       = searchParams (with_params {| href := href (url rq); searchParams := [] |} params)
    /\ method rq = verb
    /\ headers rq
       = List.app
           [("Authorization", "Bearer " ++ token);
            ("Content-Type", "application/json");
            ("Accept", "application/json")]
           (if negb useGlobalUrl && Js.truthy_string (tenantId (this s1))
            then [("X-Tenant-ID", Js.interpolate (tenantId (this s1)))]
            else [])
    /\ body_sent rq
       = match body with
         | Some b => if JsonValue.truthy b then JsonBody b else NoBody
         | None => NoBody
         end.
Proof.
  unfold dispatch. unfold_async.
  destruct (discoverTenant P s) as [[[]|x] s0]; simpl; [|discriminate].
  destruct (authenticate P s0) as [[token|x] sa]; simpl; [|discriminate].
  destruct (URL_parses P _) eqn:Hurl; simpl; [|discriminate].
  destruct (resource_api P _ _) as [elapsed res] eqn:Hapi; simpl.
  intros H. inversion H; subst. clear H. simpl.
  exists token, sa, elapsed. eexists. split; [reflexivity|].
  split; [reflexivity|]. split; [reflexivity|].
  split; [exact Hapi|]. simpl. rewrite with_params_href. simpl.
  repeat split; auto.
Qed.

(** X5. [request] returns a value exactly when the response has a status in
    200..299 and, unless that status is 204, a body that parses as JSON:
    the empty object for a 204, whose body is not read, and otherwise the
    parsed body as it is.  The state is the one [dispatch] left.  A
    response with another status in 200..299 whose body does not parse
    makes [request] throw the [SyntaxError] of [response.json()], which is
    not a [SophosClientError]. *)
Theorem request_returns_iff_success :
  forall (P : Platform) (verb endpoint : string) (params : option Params)
         (body : option Json) (useGlobalUrl : bool) (s : Sys),
    (forall (s' : Sys) (v : Json),
        request P verb endpoint params body useGlobalUrl s = (Return v, s')
        <-> exists r : Response Json,
              dispatch P verb endpoint params body useGlobalUrl s
              = (Return (Responded r), s')
              /\ ok r = true
              /\ ((status r = 204 /\ v = JObject [])
                  \/ (status r <> 204 /\ json r = Some v)))
    /\ (forall (s1 : Sys) (r : Response Json),
          dispatch P verb endpoint params body useGlobalUrl s
          = (Return (Responded r), s1) ->
          ok r = true -> status r <> 204 -> json r = None ->
          exists x : Thrown,
            request P verb endpoint params body useGlobalUrl s = (Throw x, s1)
            /\ error_name x = "SyntaxError"
            /\ instanceof_SophosClientError x = false).
Proof.
  intros P verb endpoint params body useGlobalUrl s. split.
  - intros s' v.
    unfold request, handleErrorResponse. unfold_async. split.
    + destruct (dispatch P verb endpoint params body useGlobalUrl s)
        as [[[name message|r]|x] s1]; simpl.
      * destruct (name =? "AbortError")%string; discriminate.
      * destruct (ok r) eqn:Hok; simpl.
        -- destruct (Z.eqb_spec (status r) 204) as [H204|H204].
           ++ intros H. inversion H; subst. exists r. auto.
           ++ destruct (json r) as [b|] eqn:Hj; simpl; [|discriminate].
              intros H. inversion H; subst. exists r. auto.
        -- destruct ((status r =? 401) || (status r =? 403)); simpl; [discriminate|].
           destruct (status r =? 429); discriminate.
      * discriminate.
    + intros (r & -> & Hok & Hv). simpl. rewrite Hok. simpl.
      destruct Hv as [[H204 ->] | [H204 Hj]].
      * rewrite H204. reflexivity.
      * destruct (Z.eqb_spec (status r) 204); [contradiction|].
        rewrite Hj. reflexivity.
  - intros s1 r Hd Hok H204 Hj.
    unfold request. unfold_async. rewrite Hd. simpl. rewrite Hok. simpl.
    destruct (Z.eqb_spec (status r) 204); [contradiction|].
    rewrite Hj. eexists. split; [reflexivity|]. split; reflexivity.
Qed.

(** A 204 whose body is no JSON returns the empty object; a 200 with the
    same body throws. *)
Lemma request_returns_iff_success_witness :
  let no_content := Scenario.api_answer 204 "No Content" Scenario.no_header None in
  let broken := Scenario.api_answer 200 "OK" Scenario.no_header None in
  let s := Scenario.warm 9000000 1000000 in
  fst (request (Scenario.healthy no_content) "DELETE" "/endpoint/v1/endpoints/e-1"
         None None false s) = Return (JObject [])
  /\ exists x : Thrown,
       fst (request (Scenario.healthy broken) "GET" "/common/v1/alerts"
              None None false s) = Throw x
       /\ error_name x = "SyntaxError".
Proof.
  intros no_content broken s. split.
  - destruct (request_returns_iff_success (Scenario.healthy no_content) "DELETE"
                "/endpoint/v1/endpoints/e-1" None None false s) as [Hiff _].
    destruct (Hiff (snd (dispatch (Scenario.healthy no_content) "DELETE"
                           "/endpoint/v1/endpoints/e-1" None None false s))
                (JObject [])) as [_ Hback].
    rewrite Hback; [reflexivity|].
    exists no_content. repeat split. left. split; reflexivity.
  - destruct (request_returns_iff_success (Scenario.healthy broken) "GET"
                "/common/v1/alerts" None None false s) as [_ Hthrow].
    destruct (Hthrow (snd (dispatch (Scenario.healthy broken) "GET"
                             "/common/v1/alerts" None None false s))
                broken eq_refl eq_refl) as (x & Hreq & Hname & _).
    + discriminate.
    + reflexivity.
    + exists x. rewrite Hreq. split; [reflexivity|exact Hname].
Defined.

(** X6. Every response with a status outside 200..299 makes [request] throw
    an instance of [SophosClientError] whose status code is the status of
    the response: a [SophosAuthError] exactly for 401 and 403, a
    [SophosRateLimitError] exactly for 429.  Unless the status is 401 or
    403 the client, token included, is left as it was. *)
Theorem request_failure_classified :
  forall (P : Platform) (verb endpoint : string) (params : option Params)
         (body : option Json) (useGlobalUrl : bool) (s s1 : Sys) (r : Response Json),
    dispatch P verb endpoint params body useGlobalUrl s = (Return (Responded r), s1) ->
    ok r = false ->
    exists (x : Thrown) (s2 : Sys),
      request P verb endpoint params body useGlobalUrl s = (Throw x, s2)
      /\ instanceof_SophosClientError x = true
      /\ error_statusCode x = Some (status r)
      /\ (instanceof_SophosAuthError x = true <-> status r = 401 \/ status r = 403)
      /\ (instanceof_SophosRateLimitError x = true <-> status r = 429)
      /\ world s2 = world s1
      /\ (status r <> 401 -> status r <> 403 -> s2 = s1).
Proof.
  intros P verb endpoint params body useGlobalUrl s s1 r Hd Hok.
  unfold request, handleErrorResponse. unfold_async.
  rewrite Hd. simpl. rewrite Hok. simpl.
  destruct (Z.eqb_spec (status r) 401) as [H401|H401];
    [|destruct (Z.eqb_spec (status r) 403) as [H403|H403];
      [|destruct (Z.eqb_spec (status r) 429) as [H429|H429]]];
    simpl; eexists; eexists; (split; [reflexivity|]); simpl;
    repeat split; auto; try discriminate; try lia;
    try (intros [?|?]; (discriminate || contradiction || lia));
    try (intros; (contradiction || lia || discriminate));
    try (destruct s1; reflexivity);
    try congruence.
Qed.

(** A 500 with a JSON error body. *)
Lemma request_failure_classified_witness :
  let P := Scenario.healthy
             (Scenario.api_answer 500 "Internal Server Error" Scenario.no_header
                (Some (JObject [("error", JString "InternalError")]))) in
  let s := Scenario.warm 9000000 1000000 in
  exists (x : Thrown),
    fst (request P "GET" "/common/v1/alerts" None None false s) = Throw x
    /\ error_name x = "SophosClientError"
    /\ error_statusCode x = Some 500
    /\ accessToken (this (snd (request P "GET" "/common/v1/alerts" None None false s)))
       = Some "token-0".
Proof.
  intros P s.
  destruct (request_failure_classified P "GET" "/common/v1/alerts" None None false s
              (snd (dispatch P "GET" "/common/v1/alerts" None None false s))
              (Scenario.api_answer 500 "Internal Server Error" Scenario.no_header
                 (Some (JObject [("error", JString "InternalError")])))
              eq_refl eq_refl)
    as (x & s2 & Hreq & _ & Hsc & _ & _ & _ & Hsame).
  exists x. rewrite Hreq. simpl. repeat split.
  - vm_compute in Hreq. now inversion Hreq.
  - exact Hsc.
  - rewrite (Hsame ltac:(discriminate) ltac:(discriminate)). reflexivity.
Defined.

(** X7. When the [fetch] of the data request is rejected, [request] throws,
    with the state [dispatch] left: for the "AbortError" of the timeout a
    [SophosClientError] of the base class without status code, naming the
    configured timeout; for anything else the error itself. *)
Theorem request_rejected_fetch :
  forall (P : Platform) (verb endpoint : string) (params : option Params)
         (body : option Json) (useGlobalUrl : bool) (s s1 : Sys)
         (name message : string),
    dispatch P verb endpoint params body useGlobalUrl s
    = (Return (Rejected name message), s1) ->
    (name = "AbortError" ->
     request P verb endpoint params body useGlobalUrl s
     = (Throw (SophosClientError
                 ("Sophos Central API timeout after "
                    ++ Js.String_of_number (SophosConfig.timeout (config (this s1)))
                    ++ "ms") None), s1))
    /\ (name <> "AbortError" ->
        request P verb endpoint params body useGlobalUrl s
        = (Throw (Native name message), s1)).
Proof.
  intros P verb endpoint params body useGlobalUrl s s1 name message Hd.
  unfold request. unfold_async. rewrite Hd. simpl.
  destruct (String.eqb_spec name "AbortError"); split; intros H;
    try contradiction; reflexivity.
Qed.

Lemma request_rejected_fetch_witness :
  let P := Scenario.platform (120, Responded Scenario.token_granted)
             (80, Responded Scenario.whoami_answer)
             (30000, Rejected "AbortError" "This operation was aborted") in
  fst (request P "GET" "/common/v1/alerts" None None false
         (Scenario.warm 9000000 1000000))
  = Throw (SophosClientError "Sophos Central API timeout after 30000ms" None).
Proof.
  intros P.
  destruct (request_rejected_fetch P "GET" "/common/v1/alerts" None None false
              (Scenario.warm 9000000 1000000)
              (snd (dispatch P "GET" "/common/v1/alerts" None None false
                      (Scenario.warm 9000000 1000000)))
              "AbortError" "This operation was aborted" eq_refl) as [H _].
  rewrite (H eq_refl). reflexivity.
Defined.

Lemma authenticate_caches_returned_token (P : Platform) (s s' : Sys) (token : string) :
  authenticate P s = (Return token, s') -> accessToken (this s') = Some token.
Proof.
  unfold authenticate. unfold_async.
  destruct (cached_token (this s) (clock (world s))) as [cached|] eqn:Hc.
  - intros H. inversion H; subst. clear H. unfold cached_token in Hc.
    destruct (accessToken (this s')) as [t|]; [|discriminate].
    destruct (tokenExpiresAt (this s')) as [e|]; [|discriminate].
    destruct (_ && _); [now inversion Hc | discriminate].
  - destruct (token_endpoint P _ _) as [elapsed [name message|r]]; simpl.
    + destruct (name =? "AbortError")%string; discriminate.
    + destruct (ok r); simpl; [|discriminate].
      destruct (json r) as [tokenData|]; simpl; [|discriminate].
      destruct (Js.truthy_string _); [discriminate|].
      intros H. now inversion H.
Qed.

(** X8. The request [dispatch] sends carries, as bearer, the token the cache
    holds at that time, the two JSON headers, and the tenant header
    exactly when the call goes to the data region and the tenant
    identifier is non-empty; a call to the global host never carries
    it. *)
Theorem dispatch_headers :
  forall (P : Platform) (verb endpoint : string) (params : option Params)
         (body : option Json) (useGlobalUrl : bool) (s s1 : Sys)
         (result : FetchResult Json),
    dispatch P verb endpoint params body useGlobalUrl s = (Return result, s1) ->
    exists (rq : Request) (earlier : list Call) (token : string),
      wire (world s1) = ApiCall rq :: earlier
      /\ accessToken (this s1) = Some token
      /\ header_value "Authorization" (headers rq) = Some ("Bearer " ++ token)
      /\ header_value "Content-Type" (headers rq) = Some "application/json"
      /\ header_value "Accept" (headers rq) = Some "application/json"
      /\ header_value "X-Tenant-ID" (headers rq)
         = (if useGlobalUrl then None
            else if Js.truthy_string (tenantId (this s1)) then tenantId (this s1)
                 else None).
Proof.
  intros P verb endpoint params body useGlobalUrl s s1 result Hd.
  destruct (dispatch_sends P verb endpoint params body useGlobalUrl s s1 result Hd)
    as (token & sa & elapsed & rq & Ha & Hthis & Hw & _ & _ & _ & _ & _ & Hh & _).
  pose proof (authenticate_caches_returned_token P _ _ _ Ha) as Htok.
  exists rq, (wire (world sa)), token.
  rewrite Hw, Hthis, Hh. simpl. repeat split; auto.
  rewrite <- Hthis.
  destruct useGlobalUrl; simpl; [reflexivity|].
  destruct (tenantId (this s1)) as [t|]; simpl; [|reflexivity].
  destruct (t =? "")%string; reflexivity.
Qed.

Lemma dispatch_headers_witness :
  let P := Scenario.healthy (Scenario.api_answer 200 "OK" Scenario.no_header None) in
  let s1 := snd (dispatch P "GET" "/partner/v1/tenants" None None true
                   (Scenario.warm 9000000 1000000)) in
  exists (rq : Request) (earlier : list Call),
    wire (world s1) = ApiCall rq :: earlier
    /\ header_value "Authorization" (headers rq) = Some "Bearer token-0"
    /\ header_value "X-Tenant-ID" (headers rq) = None.
Proof.
  intros P s1.
  destruct (dispatch_headers P "GET" "/partner/v1/tenants" None None true
              (Scenario.warm 9000000 1000000) s1
              (Responded (Scenario.api_answer 200 "OK" Scenario.no_header None))
              eq_refl)
    as (rq & earlier & token & Hw & Ha & Hauth & _ & _ & Ht).
  exists rq, earlier. repeat split; auto.
  vm_compute in Ha. inversion Ha; subst token. exact Hauth.
Defined.

(** X9. A client that knows its region and holds a usable token makes one
    network call per [request], the data call, with that token; no token
    exchange, no discovery. *)
Theorem warm_request_single_call :
  forall (P : Platform) (verb endpoint : string) (params : option Params)
         (body : option Json) (useGlobalUrl : bool) (s : Sys) (token : string),
    resolved (this s) = true ->
    cached_token (this s) (clock (world s)) = Some token ->
    URL_parses P ((if useGlobalUrl then SophosConfig.globalUrl (config (this s))
                   else Js.interpolate (dataRegionUrl (this s))) ++ endpoint) = true ->
    exists rq : Request,
      wire (world (snd (request P verb endpoint params body useGlobalUrl s)))
      = ApiCall rq :: wire (world s)
      /\ href (url rq)
         = (if useGlobalUrl then SophosConfig.globalUrl (config (this s))
            else Js.interpolate (dataRegionUrl (this s))) ++ endpoint
      /\ method rq = verb
      /\ header_value "Authorization" (headers rq) = Some ("Bearer " ++ token).
Proof.
  intros P verb endpoint params body useGlobalUrl s token Hres Hc Hurl.
  destruct (request_after_dispatch P verb endpoint params body useGlobalUrl s)
    as (Hw & _).
  cbv zeta in Hw. rewrite Hw. clear Hw.
  unfold dispatch. unfold_async.
  rewrite (discoverTenant_resolved P s Hres). simpl.
  rewrite (authenticate_cached P s token Hc). simpl.
  rewrite Hurl. simpl.
  destruct (resource_api P _ _) as [elapsed result]. simpl.
  eexists. split; [reflexivity|]. simpl. rewrite with_params_href. simpl. auto.
Qed.

Lemma warm_request_single_call_witness :
  let P := Scenario.healthy (Scenario.api_answer 200 "OK" Scenario.no_header None) in
  exists rq : Request,
    wire (world (snd (request P "GET" "/common/v1/alerts" None None false
                        (Scenario.warm 9000000 1000000))))
    = [ApiCall rq]
    /\ href (url rq) = "https://api-us03.central.sophos.com/common/v1/alerts".
Proof.
  intros P.
  destruct (warm_request_single_call P "GET" "/common/v1/alerts" None None false
              (Scenario.warm 9000000 1000000) "token-0" eq_refl eq_refl eq_refl)
    as (rq & Hw & Hhref & _).
  exists rq. split; [exact Hw|exact Hhref].
Defined.

(** X10. When [new URL] refuses the text made of the base and the endpoint,
    [request] throws the [TypeError] of the platform, not a
    [SophosClientError], after it has resolved and authenticated, and
    nothing goes to the resource API. *)
Theorem request_invalid_url :
  forall (P : Platform) (verb endpoint : string) (params : option Params)
         (body : option Json) (useGlobalUrl : bool) (s sa : Sys) (token : string),
    authenticate P (snd (discoverTenant P s)) = (Return token, sa) ->
    fst (discoverTenant P s) = Return tt ->
    URL_parses P ((if useGlobalUrl then SophosConfig.globalUrl (config (this sa))
                   else Js.interpolate (dataRegionUrl (this sa))) ++ endpoint) = false ->
    request P verb endpoint params body useGlobalUrl s
    = (Throw (Native "TypeError" "Invalid URL"), sa)
    /\ api_requests (wire (world sa)) = api_requests (wire (world s)).
Proof.
  intros P verb endpoint params body useGlobalUrl s sa token Ha Hd Hurl.
  assert (Hd0 : api_requests (wire (world (snd (discoverTenant P s))))
                = api_requests (wire (world s))).
  { destruct (resolved (this s)) eqn:Hres.
    - now rewrite (discoverTenant_resolved P s Hres).
    - now apply discoverTenant_calls. }
  pose proof (authenticate_api_requests P (snd (discoverTenant P s))) as Ha0.
  rewrite Ha in Ha0. simpl in Ha0.
  split; [|congruence].
  unfold request, dispatch. unfold_async.
  destruct (discoverTenant P s) as [[[]|x] s0]; simpl in *; [|discriminate].
  rewrite Ha. simpl. rewrite Hurl. reflexivity.
Qed.

(** A region URL without a scheme: the token is fetched, then the URL is
    refused. *)
Lemma request_invalid_url_witness :
  let P := {| token_endpoint := fun _ _ => (120, Responded Scenario.token_granted);
              whoami_endpoint := fun _ _ => (80, Responded Scenario.whoami_answer);
              resource_api := fun _ _ => (50, Rejected "TypeError" "fetch failed");
              URL_parses := fun text => String.prefix "https://" text |} in
  let s := {| this := {| config := Scenario.preconfigured;
                         accessToken := None;
                         tokenExpiresAt := None;
                         dataRegionUrl := Some "api-us03.central.sophos.com";
                         tenantId := Some "tenant-cfg" |};
              world := {| clock := 1000000; wire := [] |} |} in
  fst (request P "GET" "/common/v1/alerts" None None false s)
  = Throw (Native "TypeError" "Invalid URL")
  /\ wire (world (snd (request P "GET" "/common/v1/alerts" None None false s)))
     = [TokenCall (token_request Scenario.preconfigured)].
Proof.
  intros P s.
  destruct (request_invalid_url P "GET" "/common/v1/alerts" None None false s
              (snd (authenticate P s)) "token-1" eq_refl eq_refl eq_refl)
    as [Hreq _].
  rewrite Hreq. split; reflexivity.
Defined.

(* ====================================================================== *)
(** ** More on discovery *)
(* ====================================================================== *)

(** X11. A discovery that fails changes neither the data-region URL nor the
    tenant identifier nor the configuration: the two fields are assigned
    together, after the last thing that can fail.  (The token obtained on
    the way stays in the cache.) *)
Theorem discoverTenant_failure_keeps_region :
  forall (P : Platform) (s s' : Sys) (x : Thrown),
    discoverTenant P s = (Throw x, s') ->
    dataRegionUrl (this s') = dataRegionUrl (this s)
    /\ tenantId (this s') = tenantId (this s)
    /\ config (this s') = config (this s)
    /\ this s' = this (snd (authenticate P s)).
Proof.
  intros P s s' x. unfold discoverTenant. unfold_async.
  destruct (_ && _); [discriminate|].
  pose proof (authenticate_frame P s) as (Hc & Hd & Ht & _).
  destruct (authenticate P s) as [[token|y] s1]; simpl in *.
  - destruct (whoami_endpoint P _ _) as [elapsed [name message|r]]; simpl.
    + intros H. inversion H; subst. simpl. auto.
    + destruct (ok r); simpl.
      * destruct (json r); simpl; [discriminate|].
        intros H. inversion H; subst. simpl. auto.
      * intros H. inversion H; subst. simpl. auto.
  - intros H. inversion H; subst. auto.
Qed.

(** The discovery call is answered 503: the region stays unknown, the
    token stays cached. *)
Lemma discoverTenant_failure_keeps_region_witness :
  let P := Scenario.platform (120, Responded Scenario.token_granted)
             (80, Responded Scenario.whoami_unavailable)
             (50, Rejected "TypeError" "fetch failed") in
  let s' := snd (discoverTenant P (Scenario.start Scenario.region_only 1000000)) in
  dataRegionUrl (this s') = Some "https://api-us03.central.sophos.com"
  /\ tenantId (this s') = None
  /\ accessToken (this s') = Some "token-1".
Proof.
  intros P s'.
  destruct (discoverTenant_failure_keeps_region P
              (Scenario.start Scenario.region_only 1000000) s'
              (SophosClientError "Tenant discovery failed (503)" (Some 503)) eq_refl)
    as (Hd & Ht & _ & Hthis).
  rewrite Hd, Ht, Hthis. repeat split.
Defined.

(** X12. After a discovery that was made and returned, the client is resolved
    exactly when each of the two fields was set before or is given
    non-empty by the whoami response; with an empty identifier or region in
    the response the next request discovers again. *)
Theorem discoverTenant_resolves_iff :
  forall (P : Platform) (s s' : Sys),
    resolved (this s) = false ->
    discoverTenant P s = (Return tt, s') ->
    exists token s1 elapsed r whoami,
      authenticate P s = (Return token, s1)
      /\ whoami_endpoint P (whoami_request (config (this s)) token) (world s1)
         = (elapsed, Responded r)
      /\ json r = Some whoami
      /\ (resolved (this s') = true
          <-> (Js.truthy_string (dataRegionUrl (this s)) = true
               \/ SophosWhoamiResponse.dataRegion (SophosWhoamiResponse.apiHosts whoami)
                  <> "")
              /\ (Js.truthy_string (tenantId (this s)) = true
                  \/ SophosWhoamiResponse.id whoami <> "")).
Proof.
  intros P s s' Hres Hrun.
  destruct (discoverTenant_success P s s' Hres Hrun)
    as (token & s1 & elapsed & r & whoami & Ha & Hw & _ & Hj & Hd & Ht & _).
  exists token, s1, elapsed, r, whoami. repeat split; auto.
  - pose proof (authenticate_frame P s) as (_ & Hd1 & _ & _).
    rewrite Ha in Hd1. simpl in Hd1. unfold resolved in H.
    apply andb_prop in H as [H _]. rewrite Hd, Hd1 in H.
    destruct (dataRegionUrl (this s)) as [u|]; simpl in *.
    + destruct (u =? "")%string; [|now left].
      right. intros E. rewrite E in H. discriminate.
    + right. intros E. rewrite E in H. discriminate.
  - pose proof (authenticate_frame P s) as (_ & _ & Ht1 & _).
    rewrite Ha in Ht1. simpl in Ht1. unfold resolved in H.
    apply andb_prop in H as [_ H]. rewrite Ht, Ht1 in H.
    destruct (tenantId (this s)) as [u|]; simpl in *.
    + destruct (u =? "")%string; [|now left].
      right. intros E. rewrite E in H. discriminate.
    + right. intros E. rewrite E in H. discriminate.
  - intros [Hdr Hid].
    pose proof (authenticate_frame P s) as (_ & Hd1 & Ht1 & _).
    rewrite Ha in Hd1, Ht1. simpl in Hd1, Ht1.
    assert (Hor : forall a b,
               Js.truthy_string a = true \/ b <> "" ->
               Js.truthy_string (Some (Js.or_string a b)) = true).
    { intros [a|] b [Ha'|Hb]; simpl in *; try discriminate.
      - destruct (a =? "")%string eqn:E; [discriminate|]. simpl. now rewrite E.
      - destruct (a =? "")%string eqn:E; simpl.
        + now destruct (String.eqb_spec b "").
        + now rewrite E.
      - now destruct (String.eqb_spec b ""). }
    unfold resolved. rewrite Hd, Ht, Hd1, Ht1. now rewrite !Hor.
Qed.

(** The whoami response has an empty identifier: the discovery returns
    and the client is still unresolved. *)
Lemma discoverTenant_resolves_iff_witness :
  let anonymous : Response SophosWhoamiResponse.t :=
    {| status := 200; statusText := "OK"; headers_get := Scenario.no_header;
       text := None;
       json := Some {| SophosWhoamiResponse.id := "";
                       SophosWhoamiResponse.idType := SophosWhoamiResponse.partner;
                       SophosWhoamiResponse.apiHosts :=
                         {| SophosWhoamiResponse.global := "https://api.central.sophos.com";
                            SophosWhoamiResponse.dataRegion :=
                              "https://api-eu01.central.sophos.com" |} |} |} in
  let P := Scenario.platform (120, Responded Scenario.token_granted)
             (80, Responded anonymous)
             (50, Rejected "TypeError" "fetch failed") in
  let s' := snd (discoverTenant P (Scenario.start Scenario.credentials_only 1000000)) in
  fst (discoverTenant P (Scenario.start Scenario.credentials_only 1000000)) = Return tt
  /\ resolved (this s') = false.
Proof.
  intros anonymous P s'. split; [reflexivity|].
  destruct (discoverTenant_resolves_iff P
              (Scenario.start Scenario.credentials_only 1000000) s' eq_refl eq_refl)
    as (token & s1 & elapsed & r & whoami & Ha & Hw & Hj & Hiff).
  vm_compute in Hw. inversion Hw; subst r. vm_compute in Hj. inversion Hj; subst whoami.
  destruct (resolved (this s')) eqn:E; [|reflexivity].
  destruct Hiff as [Hiff _]. destruct (Hiff eq_refl) as [_ [H|H]].
  - discriminate.
  - now contradiction H.
Defined.

(* ====================================================================== *)
(** ** The query string *)
(* ====================================================================== *)

Lemma set_pair_fresh (key value : string) (l : list (string * string)) :
  ~ In key (map fst l) -> set_pair key value l = (l ++ [(key, value)])%list.
Proof.
  induction l as [|[k v] rest IH]; simpl; intros Hnot; [reflexivity|].
  destruct (String.eqb_spec k key) as [->|Hne].
  - exfalso. apply Hnot. now left.
  - rewrite IH; [reflexivity|]. intros Hin. apply Hnot. now right.
Qed.

Lemma filter_key_absent (key : string) (l : list (string * string)) :
  filter (fun kv => (fst kv =? key)%string)
         (filter (fun kv => negb (fst kv =? key)%string) l) = [].
Proof.
  induction l as [|[k v] rest IH]; simpl; [reflexivity|].
  destruct (String.eqb_spec k key); simpl; [exact IH|].
  destruct (String.eqb_spec k key); [contradiction|exact IH].
Qed.

Lemma filter_idempotent {A : Type} (f : A -> bool) (l : list A) :
  filter f (filter f l) = filter f l.
Proof.
  induction l as [|a rest IH]; simpl; [reflexivity|].
  destruct (f a) eqn:E; simpl; [now rewrite E, IH|exact IH].
Qed.

(** [searchParams.set]: afterwards the key has the value, exactly one pair
    has the key, and the pairs of the other keys are what they were, in
    the same order. *)
Theorem set_pair_spec :
  forall (key value : string) (l : list (string * string)),
    searchParams_get key (set_pair key value l) = Some value
    /\ filter (fun kv => (fst kv =? key)%string) (set_pair key value l) = [(key, value)]
    /\ filter (fun kv => negb (fst kv =? key)%string) (set_pair key value l)
       = filter (fun kv => negb (fst kv =? key)%string) l.
Proof.
  intros key value l. induction l as [|[k v] rest (IH1 & IH2 & IH3)]; simpl.
  - rewrite String.eqb_refl. simpl. auto.
  - destruct (String.eqb_spec k key) as [->|Hne]; simpl.
    + rewrite String.eqb_refl. simpl.
      rewrite filter_key_absent, filter_idempotent. auto.
    + destruct (String.eqb_spec k key); [contradiction|]. simpl.
      rewrite IH3. auto.
Qed.

(** X13. The query of a request: for a [params] record (its keys are
    distinct), the entries that have a value, in the order of the record,
    each with the text of its value; an [undefined] value is left out,
    while [0], [false] and the empty string are sent. *)
Theorem with_params_query :
  forall (text : string) (entries : Params),
    NoDup (map fst entries) ->
    with_params {| href := text; searchParams := [] |} (Some entries)
    = {| href := text; searchParams := defined_entries entries |}.
Proof.
  intros text entries Hnd.
  assert (Hgen : forall (es : Params) (acc : list (string * string)),
             NoDup (map fst es) ->
             (forall k, In k (map fst es) -> ~ In k (map fst acc)) ->
             fold_left
               (fun u' '(key, value) =>
                  match value with
                  | Some v => searchParams_set key (String_of_param v) u'
                  | None => u'
                  end)
               es {| href := text; searchParams := acc |}
             = {| href := text; searchParams := (acc ++ defined_entries es)%list |}).
  { induction es as [|[k [v|]] rest IH]; intros acc Hn Hfresh; simpl.
    - now rewrite app_nil_r.
    - inversion Hn as [|? ? Hk Hrest]; subst.
      unfold searchParams_set at 2. simpl.
      rewrite set_pair_fresh by (apply Hfresh; now left).
      rewrite IH; auto.
      + now rewrite <- app_assoc.
      + intros k' Hin. rewrite map_app, in_app_iff. simpl.
        intros [H|[H|[]]].
        * apply (Hfresh k'); [now right|exact H].
        * subst k'. contradiction.
    - inversion Hn as [|? ? Hk Hrest]; subst.
      apply IH; auto. intros k' Hin. apply Hfresh. now right. }
  simpl. rewrite Hgen; auto.
Qed.

Lemma with_params_query_witness :
  with_params {| href := "https://api-us03.central.sophos.com/common/v1/alerts";
                 searchParams := [] |}
    (Some [("pageSize", Some (PNumber 50)); ("page", Some (PNumber 0));
           ("severity", None); ("acknowledged", Some (PBoolean false));
           ("search", Some (PString ""))])
  = {| href := "https://api-us03.central.sophos.com/common/v1/alerts";
       searchParams := [("pageSize", "50"); ("page", "0");
                        ("acknowledged", "false"); ("search", "")] |}.
Proof.
  apply (with_params_query "https://api-us03.central.sophos.com/common/v1/alerts").
  repeat constructor; simpl; intuition discriminate.
Defined.

(* ====================================================================== *)
(** ** Numbers as text *)
(* ====================================================================== *)

Lemma numeral_value_revapp (d d' : Decimal.uint) :
  Z.of_N (Unsigned.of_lu (Decimal.revapp d d'))
  = numeral_value d (Z.of_N (Unsigned.of_lu d')).
Proof.
  revert d'. induction d; intros d'; cbn [Decimal.revapp numeral_value];
    [reflexivity|..];
    rewrite IHd; f_equal; cbn [Unsigned.of_lu]; lia.
Qed.

Lemma numeral_value_of_uint (d : Decimal.uint) : Z.of_uint d = numeral_value d 0.
Proof.
  unfold Z.of_uint. rewrite Unsigned.of_uint_alt. unfold Decimal.rev.
  now rewrite numeral_value_revapp.
Qed.

Ltac digit_value_known :=
  change (Js.digit_value "0") with (Some 0);
  change (Js.digit_value "1") with (Some 1);
  change (Js.digit_value "2") with (Some 2);
  change (Js.digit_value "3") with (Some 3);
  change (Js.digit_value "4") with (Some 4);
  change (Js.digit_value "5") with (Some 5);
  change (Js.digit_value "6") with (Some 6);
  change (Js.digit_value "7") with (Some 7);
  change (Js.digit_value "8") with (Some 8);
  change (Js.digit_value "9") with (Some 9);
  cbv iota beta.

Lemma leading_digits_numeral (d : Decimal.uint) (a : Z) :
  Js.leading_digits (NilEmpty.string_of_uint d) (Some a) = Some (numeral_value d a).
Proof.
  revert a. induction d; intros a;
    cbn [NilEmpty.string_of_uint Js.leading_digits numeral_value];
    [reflexivity|..]; digit_value_known; apply IHd.
Qed.

Lemma parseInt_numeral (d : Decimal.uint) :
  Js.parseInt (NilZero.string_of_uint d) = Js.Num (Z.of_uint d).
Proof.
  rewrite numeral_value_of_uint.
  destruct d; [reflexivity|..];
    unfold Js.parseInt;
    cbn [NilZero.string_of_uint NilEmpty.string_of_uint Js.trim_start];
    (change (Js.is_white_space _) with false); cbv iota;
    cbn [Js.leading_digits numeral_value];
    digit_value_known; rewrite leading_digits_numeral; f_equal; lia.
Qed.

(** [parseInt] reads back the decimal text of every integer. *)
Lemma parseInt_String_of_number (n : Z) :
  Js.parseInt (Js.String_of_number n) = Js.Num n.
Proof.
  unfold Js.String_of_number.
  rewrite <- (DecimalZ.of_to n) at 2.
  destruct (Z.to_int n) as [d|d]; cbn [NilZero.string_of_int Z.of_int].
  - apply parseInt_numeral.
  - pose proof (parseInt_numeral d) as H. revert H.
    unfold Js.parseInt. cbn [Js.trim_start].
    change (Js.is_white_space "-") with false. cbv iota.
    destruct d; cbn [NilZero.string_of_uint NilEmpty.string_of_uint Js.trim_start];
      try (change (Js.is_white_space _) with false); cbv iota;
      (destruct (Js.leading_digits _ None) as [v|]; intros H;
       [injection H as H; f_equal; destruct v; rewrite <- H; reflexivity
       | discriminate H]).
Qed.

(** X14. The [retryAfter] of the error thrown for a 429: the number of the
    header when its value is the decimal text of an integer of magnitude
    at most 2^53 (up to there [parseInt] is exact; beyond, its result is a
    rounded double); undefined when the value is empty; NaN, not
    undefined, when the value starts with something that is neither white
    space, a sign nor a digit, as an HTTP date does. *)
Theorem request_429_retry_after_value :
  forall (P : Platform) (verb endpoint : string) (params : option Params)
         (body : option Json) (useGlobalUrl : bool) (s s1 : Sys) (r : Response Json),
    dispatch P verb endpoint params body useGlobalUrl s = (Return (Responded r), s1) ->
    status r = 429 ->
    exists x : Thrown,
      request P verb endpoint params body useGlobalUrl s = (Throw x, s1)
      /\ (forall n : Z,
            - 9007199254740992 <= n <= 9007199254740992 ->
            headers_get r "Retry-After" = Some (Js.String_of_number n) ->
            error_retryAfter x = Some (Js.Num n))
      /\ (headers_get r "Retry-After" = Some "" -> error_retryAfter x = None)
      /\ (forall (c : ascii) (rest : string),
            headers_get r "Retry-After" = Some (String c rest) ->
            Js.is_white_space c = false ->
            c <> "-"%char -> c <> "+"%char ->
            Js.digit_value c = None ->
            error_retryAfter x = Some Js.NaN).
Proof.
  intros P verb endpoint params body useGlobalUrl s s1 r Hd Hst.
  unfold request, handleErrorResponse. unfold_async.
  rewrite Hd. simpl. unfold ok. rewrite Hst. simpl.
  destruct s1 as [c w]. simpl.
  eexists. split; [reflexivity|]. simpl. repeat split.
  - intros n _ Hh. rewrite Hh.
    assert (Hne : (Js.String_of_number n =? "")%string = false).
    { unfold Js.String_of_number.
      destruct (Z.to_int n) as [[| | | | | | | | | |]|[| | | | | | | | | |]];
        reflexivity. }
    simpl. rewrite Hne. simpl. now rewrite parseInt_String_of_number.
  - intros ->. reflexivity.
  - intros ch rest Hh Hws Hminus Hplus Hdigit. rewrite Hh.
    cbn [Js.truthy_string String.eqb negb Js.interpolate].
    unfold Js.parseInt. cbn [Js.trim_start]. rewrite Hws.
    destruct (Ascii.eqb_spec ch "-"%char) as [->|_]; [contradiction|].
    destruct (Ascii.eqb_spec ch "+"%char) as [->|_]; [contradiction|].
    assert (Hsplit : (let '(sign, s2) :=
                        match String ch rest with
                        | String "-"%char r0 => (-1, r0)
                        | String "+"%char r0 => (1, r0)
                        | _ => (1, String ch rest)
                        end in
                      match Js.leading_digits s2 None with
                      | Some v => Js.Num (sign * v)
                      | None => Js.NaN
                      end) = Js.NaN).
    { destruct ch as [[|] [|] [|] [|] [|] [|] [|] [|]];
        try (exfalso; apply Hminus; reflexivity);
        try (exfalso; apply Hplus; reflexivity);
        cbn [Js.leading_digits]; rewrite Hdigit; reflexivity. }
    now rewrite Hsplit.
Qed.

(** [Retry-After: 120]. *)
Lemma request_429_retry_after_value_witness :
  let P := Scenario.healthy
             (Scenario.api_answer 429 "Too Many Requests"
                (fun name => if (name =? "Retry-After")%string then Some "120" else None)
                None) in
  exists x : Thrown,
    fst (request P "GET" "/common/v1/alerts" None None false
           (Scenario.warm 9000000 1000000)) = Throw x
    /\ error_retryAfter x = Some (Js.Num 120).
Proof.
  intros P.
  destruct (request_429_retry_after_value P "GET" "/common/v1/alerts" None None false
              (Scenario.warm 9000000 1000000)
              (snd (dispatch P "GET" "/common/v1/alerts" None None false
                      (Scenario.warm 9000000 1000000)))
              (Scenario.api_answer 429 "Too Many Requests"
                 (fun name => if (name =? "Retry-After")%string then Some "120" else None)
                 None)
              eq_refl eq_refl)
    as (x & Hreq & Hnum & _).
  exists x. rewrite Hreq. split; [reflexivity|].
  apply (Hnum 120); [lia|reflexivity].
Defined.

(* ====================================================================== *)
(** ** Where the entity methods go *)
(* ====================================================================== *)

Lemma discoverTenant_api_requests (P : Platform) (s : Sys) :
  api_requests (wire (world (snd (discoverTenant P s))))
  = api_requests (wire (world s)).
Proof.
  destruct (resolved (this s)) eqn:Hres.
  - now rewrite (discoverTenant_resolved P s Hres).
  - now apply discoverTenant_calls.
Qed.

Lemma dispatch_throws_before_sending (P : Platform) (verb endpoint : string)
    (params : option Params) (body : option Json) (useGlobalUrl : bool)
    (s s1 : Sys) (x : Thrown) :
  dispatch P verb endpoint params body useGlobalUrl s = (Throw x, s1) ->
  api_requests (wire (world s1)) = api_requests (wire (world s)).
Proof.
  pose proof (discoverTenant_api_requests P s) as H0.
  unfold dispatch. unfold_async.
  destruct (discoverTenant P s) as [[[]|y] s0]; simpl in *.
  - pose proof (authenticate_api_requests P s0) as H1.
    destruct (authenticate P s0) as [[token|y] sa]; simpl in *.
    + destruct (URL_parses P _); simpl.
      * destruct (resource_api P _ _); discriminate.
      * intros H. inversion H; subst. congruence.
    + intros H. inversion H; subst. congruence.
  - intros H. inversion H; subst. congruence.
Qed.

(** The one request a [request] may send to the resource API, read from
    the state it ends in. *)
Lemma request_api_request (P : Platform) (verb endpoint : string)
    (params : option Params) (body : option Json) (useGlobalUrl : bool) (s : Sys) :
  let s' := snd (request P verb endpoint params body useGlobalUrl s) in
  api_requests (wire (world s')) = api_requests (wire (world s))
  \/ exists rq,
       api_requests (wire (world s')) = rq :: api_requests (wire (world s))
       /\ href (url rq)
          = (if useGlobalUrl then SophosConfig.globalUrl (config (this s'))
             else Js.interpolate (dataRegionUrl (this s'))) ++ endpoint
       /\ method rq = verb
       /\ body_sent rq
          = match body with
            | Some b => if JsonValue.truthy b then JsonBody b else NoBody
            | None => NoBody
            end
       /\ (useGlobalUrl = true -> header_value "X-Tenant-ID" (headers rq) = None)
       /\ (useGlobalUrl = false ->
           header_value "X-Tenant-ID" (headers rq)
           = if Js.truthy_string (tenantId (this s')) then tenantId (this s') else None).
Proof.
  destruct (request_after_dispatch P verb endpoint params body useGlobalUrl s)
    as (Hw & Hc & Hd & Ht).
  cbv zeta in *. rewrite Hw, Hc, Hd, Ht.
  destruct (dispatch P verb endpoint params body useGlobalUrl s)
    as [[result|x] s1] eqn:Hdis; simpl.
  - right.
    destruct (dispatch_sends P verb endpoint params body useGlobalUrl s s1 result Hdis)
      as (token & sa & elapsed & rq & Ha & Hthis & Hwire & _ & _ & Hhref & _ & Hm & Hh & Hb).
    exists rq. rewrite Hwire. simpl.
    pose proof (authenticate_api_requests P (snd (discoverTenant P s))) as H1.
    rewrite Ha in H1. simpl in H1.
    rewrite H1, discoverTenant_api_requests.
    repeat split; auto.
    + intros ->. rewrite Hh. reflexivity.
    + intros ->. rewrite Hh. simpl.
      destruct (tenantId (this s1)) as [t|]; simpl; [|reflexivity].
      destruct (t =? "")%string; reflexivity.
  - left. eapply dispatch_throws_before_sending; eassumption.
Qed.

(* ====================================================================== *)
(** ** Loading the configuration *)
(* ====================================================================== *)

Lemma strip_trailing_slashes_clean (s : string) :
  ends_with_slash (strip_trailing_slashes s) = false.
Proof.
  induction s as [|c r IH]; simpl; [reflexivity|].
  destruct (Ascii.eqb_spec c "/") as [->|Hc]; simpl.
  - destruct (strip_trailing_slashes r) as [|c' r'] eqn:E; simpl; [reflexivity|].
    exact IH.
  - destruct (strip_trailing_slashes r) as [|c' r'] eqn:E; simpl.
    + now apply Ascii.eqb_neq.
    + exact IH.
Qed.

Lemma strip_trailing_slashes_split (s : string) :
  exists n : nat, s = strip_trailing_slashes s ++ slashes n.
Proof.
  induction s as [|c r [n IH]]; simpl.
  - now exists O.
  - destruct (Ascii.eqb_spec c "/") as [->|Hc]; simpl.
    + destruct (strip_trailing_slashes r) as [|c' r'] eqn:E; simpl in *.
      * exists (S n). simpl. now rewrite IH at 1.
      * exists n. now rewrite IH at 1.
    + exists n. now rewrite IH at 1.
Qed.

Lemma strip_trailing_slashes_fixed (s : string) :
  ends_with_slash s = false -> strip_trailing_slashes s = s.
Proof.
  induction s as [|c r IH]; simpl; [reflexivity|].
  destruct r as [|c' r'].
  - intros Hc. simpl. rewrite Hc. reflexivity.
  - intros H. rewrite (IH H). simpl. now rewrite andb_false_r.
Qed.

Lemma strip_trailing_slashes_of_slashes (n : nat) :
  strip_trailing_slashes (slashes n) = "".
Proof.
  induction n as [|n IH]; simpl; [reflexivity|]. now rewrite IH.
Qed.

(** X16. [getConfig] returns exactly when the client identifier and the client
    secret are both set and non-empty; otherwise it throws a plain
    [Error], for the identifier first. *)
Theorem getConfig_requires_credentials :
  forall env : Env,
    ((exists c, getConfig env = Return c)
     <-> Js.truthy_string (env "SOPHOS_CLIENT_ID") = true
         /\ Js.truthy_string (env "SOPHOS_CLIENT_SECRET") = true)
    /\ (Js.truthy_string (env "SOPHOS_CLIENT_ID") = false ->
        getConfig env = Throw (Native "Error" (missing_message "SOPHOS_CLIENT_ID")))
    /\ (forall c, getConfig env = Return c ->
          env "SOPHOS_CLIENT_ID" = Some (LoadedConfig.clientId c)
          /\ env "SOPHOS_CLIENT_SECRET" = Some (LoadedConfig.clientSecret c)
          /\ LoadedConfig.tenantId c = env "SOPHOS_TENANT_ID"
          /\ LoadedConfig.globalUrl c = SOPHOS_GLOBAL_URL).
Proof.
  intros env. unfold getConfig.
  destruct (Js.truthy_string (env "SOPHOS_CLIENT_ID")) eqn:HI; simpl.
  - destruct (Js.truthy_string (env "SOPHOS_CLIENT_SECRET")) eqn:HS; simpl.
    + split; [split; [auto | intros _; eexists; reflexivity]|].
      split; [discriminate|].
      intros c Hc. inversion Hc; subst; simpl.
      destruct (env "SOPHOS_CLIENT_ID"); [|discriminate HI].
      destruct (env "SOPHOS_CLIENT_SECRET"); [|discriminate HS].
      auto.
    + split; [split; [intros [c Hc]; discriminate | intros [_ Hs]; discriminate]|].
      split; [discriminate | intros c Hc; discriminate].
  - split; [split; [intros [c Hc]; discriminate | intros [Hi _]; discriminate]|].
    split; [reflexivity | intros c Hc; discriminate].
Qed.

(** X17. The URLs [getConfig] returns never end with a slash: the data-region
    URL is the variable without the slashes that end it; the token URL is
    the default when its variable is unset or empty, and otherwise the
    variable without the slashes that end it. *)
Theorem getConfig_urls_without_trailing_slash :
  forall (env : Env) (c : LoadedConfig.t),
    getConfig env = Return c ->
    ends_with_slash (LoadedConfig.authUrl c) = false
    /\ (env "SOPHOS_AUTH_URL" = None \/ env "SOPHOS_AUTH_URL" = Some "" ->
        LoadedConfig.authUrl c = SOPHOS_AUTH_URL)
    /\ (forall u, env "SOPHOS_AUTH_URL" = Some u -> u <> "" ->
          exists n : nat, u = LoadedConfig.authUrl c ++ slashes n)
    /\ (env "SOPHOS_API_URL" = None -> LoadedConfig.apiUrl c = None)
    /\ (forall u, env "SOPHOS_API_URL" = Some u ->
          exists (v : string) (n : nat),
            LoadedConfig.apiUrl c = Some v
            /\ ends_with_slash v = false
            /\ u = v ++ slashes n).
Proof.
  intros env c. unfold getConfig.
  destruct (negb (Js.truthy_string (env "SOPHOS_CLIENT_ID"))); [discriminate|].
  destruct (negb (Js.truthy_string (env "SOPHOS_CLIENT_SECRET"))); [discriminate|].
  intros H. inversion H; subst. clear H. simpl. repeat split.
  - apply strip_trailing_slashes_clean.
  - intros [-> | ->]; reflexivity.
  - intros u -> Hu. simpl.
    destruct (String.eqb_spec u ""); [contradiction|].
    apply strip_trailing_slashes_split.
  - intros ->. reflexivity.
  - intros u ->. simpl.
    destruct (strip_trailing_slashes_split u) as [n Hn].
    exists (strip_trailing_slashes u), n. repeat split; auto.
    apply strip_trailing_slashes_clean.
Qed.

Lemma getConfig_urls_without_trailing_slash_witness :
  let env := Scenario.environment
               [("SOPHOS_API_URL", "https://api-eu01.central.sophos.com//");
                ("SOPHOS_AUTH_URL", "https://id.example.com/oauth2/token/")] in
  exists c : LoadedConfig.t,
    getConfig env = Return c
    /\ LoadedConfig.apiUrl c = Some "https://api-eu01.central.sophos.com"
    /\ ends_with_slash (LoadedConfig.authUrl c) = false
    /\ exists n : nat,
         "https://id.example.com/oauth2/token/" = LoadedConfig.authUrl c ++ slashes n.
Proof.
  intros env.
  destruct (getConfig env) as [c|x] eqn:Hc; [|discriminate].
  exists c. split; [reflexivity|].
  destruct (getConfig_urls_without_trailing_slash env c Hc)
    as (Hclean & _ & Hauth & _ & _).
  split; [|split].
  - vm_compute in Hc. inversion Hc. reflexivity.
  - exact Hclean.
  - apply Hauth; [reflexivity|discriminate].
Defined.

(** X18. The timeout [getConfig] returns, in milliseconds: 30000 when the
    variable is unset; a thousand times the variable when it is the
    decimal text of an integer whose product with 1000 has a magnitude of
    at most 2^53 (up to there [parseInt] and the product are exact); NaN
    when it is set but empty. *)
Theorem getConfig_timeout :
  forall (env : Env) (c : LoadedConfig.t),
    getConfig env = Return c ->
    (env "SOPHOS_TIMEOUT" = None -> LoadedConfig.timeout c = Js.Num 30000)
    /\ (forall n : Z,
          - 9007199254740992 <= n * 1000 <= 9007199254740992 ->
          env "SOPHOS_TIMEOUT" = Some (Js.String_of_number n) ->
          LoadedConfig.timeout c = Js.Num (n * 1000))
    /\ (env "SOPHOS_TIMEOUT" = Some "" -> LoadedConfig.timeout c = Js.NaN).
Proof.
  intros env c. unfold getConfig.
  destruct (negb (Js.truthy_string (env "SOPHOS_CLIENT_ID"))); [discriminate|].
  destruct (negb (Js.truthy_string (env "SOPHOS_CLIENT_SECRET"))); [discriminate|].
  intros H. inversion H; subst. clear H. simpl. repeat split.
  - intros ->. reflexivity.
  - intros n _ ->. now rewrite parseInt_String_of_number.
  - intros ->. reflexivity.
Qed.

Lemma getConfig_timeout_witness :
  let env := Scenario.environment [("SOPHOS_TIMEOUT", "45")] in
  exists c : LoadedConfig.t,
    getConfig env = Return c /\ LoadedConfig.timeout c = Js.Num 45000.
Proof.
  intros env.
  destruct (getConfig env) as [c|x] eqn:Hc; [|discriminate].
  exists c. split; [reflexivity|].
  destruct (getConfig_timeout env c Hc) as (_ & Hn & _).
  apply (Hn 45); [lia|reflexivity].
Defined.

(** X19. From the environment to the client: with a tenant identifier and a
    data-region URL that is more than slashes, the client constructed
    from the loaded configuration is resolved and no sequence of requests
    makes a discovery call; a data-region URL made of slashes only counts
    as none, and the client is unresolved. *)
Theorem getConfig_constructor_resolved :
  forall (env : Env) (c : LoadedConfig.t) (cfg : SophosConfig.t),
    getConfig env = Return c ->
    as_SophosConfig c = Some cfg ->
    (forall u,
        Js.truthy_string (env "SOPHOS_TENANT_ID") = true ->
        env "SOPHOS_API_URL" = Some u ->
        strip_trailing_slashes u <> "" ->
        resolved (constructor cfg) = true
        /\ forall (P : Platform) (l : list Invocation) (w : World),
             discoveries (world (run P l {| this := constructor cfg; world := w |}))
             = discoveries w)
    /\ (forall n : nat,
          env "SOPHOS_API_URL" = Some (slashes n) ->
          resolved (constructor cfg) = false).
Proof.
  intros env c cfg. unfold getConfig.
  destruct (negb (Js.truthy_string (env "SOPHOS_CLIENT_ID"))); [discriminate|].
  destruct (negb (Js.truthy_string (env "SOPHOS_CLIENT_SECRET"))); [discriminate|].
  intros H. inversion H; subst. clear H.
  unfold as_SophosConfig. simpl.
  destruct (times _ 1000) as [|ms]; [discriminate|].
  intros H. inversion H; subst. clear H. split.
  - intros u Ht Hu Hne.
    assert (Hres : resolved
                     (constructor
                        {| SophosConfig.clientId := Js.interpolate (env "SOPHOS_CLIENT_ID");
                           SophosConfig.clientSecret :=
                             Js.interpolate (env "SOPHOS_CLIENT_SECRET");
                           SophosConfig.tenantId := env "SOPHOS_TENANT_ID";
                           SophosConfig.apiUrl :=
                             option_map strip_trailing_slashes (env "SOPHOS_API_URL");
                           SophosConfig.authUrl :=
                             strip_trailing_slashes
                               (Js.or_string (env "SOPHOS_AUTH_URL") SOPHOS_AUTH_URL);
                           SophosConfig.globalUrl := SOPHOS_GLOBAL_URL;
                           SophosConfig.timeout := ms |}) = true).
    { unfold resolved. simpl. rewrite Ht, Hu. simpl.
      destruct (String.eqb_spec (strip_trailing_slashes u) ""); [contradiction|].
      reflexivity. }
    split; [exact Hres|].
    intros P l w.
    now destruct (run_frame P l {| this := constructor _; world := w |} Hres)
      as (_ & _ & _ & ->).
  - intros n Hu. unfold resolved. simpl. rewrite Hu. simpl.
    now rewrite strip_trailing_slashes_of_slashes.
Qed.

Lemma getConfig_constructor_resolved_witness :
  let env := Scenario.environment
               [("SOPHOS_TENANT_ID", "tenant-env");
                ("SOPHOS_API_URL", "https://api-eu01.central.sophos.com/")] in
  exists cfg : SophosConfig.t,
    SophosConfig.apiUrl cfg = Some "https://api-eu01.central.sophos.com"
    /\ resolved (constructor cfg) = true.
Proof.
  intros env.
  destruct (getConfig env) as [c|x] eqn:Hc; [|discriminate].
  destruct (as_SophosConfig c) as [cfg|] eqn:Hcfg;
    [|vm_compute in Hc; inversion Hc; subst c; discriminate Hcfg].
  exists cfg.
  destruct (getConfig_constructor_resolved env c cfg Hc Hcfg) as [Hres _].
  split.
  - vm_compute in Hc. inversion Hc; subst c. vm_compute in Hcfg.
    inversion Hcfg. reflexivity.
  - apply (Hres "https://api-eu01.central.sophos.com/"); try reflexivity.
    vm_compute. discriminate.
Defined.

(* ====================================================================== *)
(** ** The tenant health report *)
(* ====================================================================== *)

(** X20. The reported health score lies between 0 and 100 whatever the two
    totals are; it never rises with the number of alerts; it is 100
    exactly without alerts and 0 exactly from 50 alerts on; the number of
    endpoints has no part in it. *)
Theorem tenant_health_score_bounds :
  forall (tenant_id : string) (totalEndpoints totalAlerts : Z),
    let score a := HealthReport.healthScore (tenant_health_result tenant_id totalEndpoints a) in
    0 <= score totalAlerts <= 100
    /\ (forall more, totalAlerts <= more -> score more <= score totalAlerts)
    /\ (score totalAlerts = 100 <-> totalAlerts <= 0)
    /\ (score totalAlerts = 0 <-> 50 <= totalAlerts)
    /\ (forall otherId otherEndpoints,
          HealthReport.healthScore
            (tenant_health_result otherId otherEndpoints totalAlerts)
          = score totalAlerts).
Proof.
  intros tenant_id totalEndpoints totalAlerts score.
  unfold score, tenant_health_result. cbn [HealthReport.healthScore].
  repeat split; intros; lia.
Qed.

(** X21. The health rating in terms of the number of alerts: excellent up to
    5, good from 6 to 15, fair from 16 to 25, poor from 26 on.  The list
    of recommendations has four items from 11 alerts on, two from 1 to 10
    and one without alerts. *)
Theorem tenant_health_rating_thresholds :
  forall (tenant_id : string) (totalEndpoints totalAlerts : Z),
    let report := tenant_health_result tenant_id totalEndpoints totalAlerts in
    (HealthReport.healthRating report = "excellent" <-> totalAlerts <= 5)
    /\ (HealthReport.healthRating report = "good" <-> 6 <= totalAlerts <= 15)
    /\ (HealthReport.healthRating report = "fair" <-> 16 <= totalAlerts <= 25)
    /\ (HealthReport.healthRating report = "poor" <-> 26 <= totalAlerts)
    /\ (List.length (HealthReport.recommendations report) = 4%nat
        <-> 11 <= totalAlerts)
    /\ (List.length (HealthReport.recommendations report) = 2%nat
        <-> 1 <= totalAlerts <= 10)
    /\ (List.length (HealthReport.recommendations report) = 1%nat
        <-> totalAlerts <= 0).
Proof.
  intros tenant_id totalEndpoints totalAlerts report.
  unfold report, tenant_health_result.
  cbn [HealthReport.healthRating HealthReport.recommendations].
  destruct (Z.leb_spec 90 (Z.max 0 (100 - totalAlerts * 2)));
    [|destruct (Z.leb_spec 70 (Z.max 0 (100 - totalAlerts * 2)));
      [|destruct (Z.leb_spec 50 (Z.max 0 (100 - totalAlerts * 2)))]];
    destruct (Z.ltb_spec 10 totalAlerts);
    destruct (Z.ltb_spec 0 totalAlerts);
    simpl; repeat split; intros; try lia; try discriminate; try reflexivity.
Qed.

(* ====================================================================== *)
(** ** The validity window *)
(* ====================================================================== *)

Lemma warm_request_keeps_client (P : Platform) (verb endpoint : string)
    (params : option Params) (body : option Json) (useGlobalUrl : bool)
    (s : Sys) (token : string) :
  never_unauthorized P ->
  resolved (this s) = true ->
  cached_token (this s) (clock (world s)) = Some token ->
  let s' := snd (request P verb endpoint params body useGlobalUrl s) in
  this s' = this s /\ token_exchanges (world s') = token_exchanges (world s).
Proof.
  intros Hnever Hres Hc.
  unfold request, dispatch, handleErrorResponse, token_exchanges. unfold_async.
  rewrite (discoverTenant_resolved P s Hres). simpl.
  rewrite (authenticate_cached P s token Hc). simpl.
  destruct (URL_parses P _); simpl; [|auto].
  match goal with
  | |- context [resource_api P ?rq ?w] =>
      specialize (Hnever rq w);
      destruct (resource_api P rq w) as [elapsed [name message|r]]
  end; simpl in *.
  - destruct (name =? "AbortError")%string; simpl; auto.
  - destruct Hnever as [H401 H403].
    destruct (ok r); simpl.
    + destruct (status r =? 204); simpl; auto.
      destruct (json r); simpl; auto.
    + destruct (Z.eqb_spec (status r) 401); [contradiction|].
      destruct (Z.eqb_spec (status r) 403); [contradiction|]. simpl.
      destruct (status r =? 429); simpl; auto.
Qed.

(** X22. Within the validity of the cached token the client never
    authenticates: for a resolved client holding a non-empty token, any
    sequence of requests that all start before the stored expiry, none of
    them answered 401 or 403, makes no token exchange and no discovery
    call and leaves the client's fields as they are. *)
Theorem cached_token_serves_validity_window :
  forall (P : Platform) (l : list Invocation) (s : Sys) (token : string) (expiresAt : Z),
    never_unauthorized P ->
    resolved (this s) = true ->
    accessToken (this s) = Some token ->
    token <> "" ->
    tokenExpiresAt (this s) = Some expiresAt ->
    within_validity P expiresAt l s ->
    this (run P l s) = this s
    /\ token_exchanges (world (run P l s)) = token_exchanges (world s)
    /\ discoveries (world (run P l s)) = discoveries (world s).
Proof.
  intros P l. induction l as [|i rest IH];
    intros s token expiresAt Hnever Hres Ha Hne He Hwithin; simpl; [auto|].
  destruct Hwithin as [[H0 Hlt] Hrest].
  assert (Hc : cached_token (this (elapse (after i) s))
                 (clock (world (elapse (after i) s))) = Some token).
  { apply cached_token_hit with (e := expiresAt); auto. }
  destruct (warm_request_keeps_client P (inv_method i) (inv_endpoint i) (inv_params i)
              (inv_body i) (inv_useGlobalUrl i) (elapse (after i) s) token
              Hnever Hres Hc) as [Hthis Htok].
  destruct (request_frame P (inv_method i) (inv_endpoint i) (inv_params i)
              (inv_body i) (inv_useGlobalUrl i) (elapse (after i) s) Hres)
    as (_ & _ & _ & Hdisc).
  cbv zeta in *.
  destruct (IH (snd (request P (inv_method i) (inv_endpoint i) (inv_params i)
                       (inv_body i) (inv_useGlobalUrl i) (elapse (after i) s)))
              token expiresAt Hnever) as (IH1 & IH2 & IH3);
    try (rewrite Hthis; simpl; assumption); auto.
  rewrite IH1, IH2, IH3, Hthis, Htok, Hdisc. auto.
Qed.

(** Three requests a minute apart, the token being good for two hours. *)
Lemma cached_token_serves_validity_window_witness :
  let P := Scenario.healthy
             (Scenario.api_answer 200 "OK" Scenario.no_header (Some (JObject []))) in
  let call := {| after := 60000; inv_method := "GET";
                 inv_endpoint := "/common/v1/alerts"; inv_params := None;
                 inv_body := None; inv_useGlobalUrl := false |} in
  token_exchanges (world (run P [call; call; call] (Scenario.warm 9000000 1000000)))
  = 0%nat.
Proof.
  intros P call.
  assert (Hnever : never_unauthorized P) by (intros rq w; simpl; split; discriminate).
  assert (Hne : "token-0" <> "") by discriminate.
  assert (Hwithin : within_validity P 9000000 [call; call; call]
                      (Scenario.warm 9000000 1000000))
    by (vm_compute; repeat split; discriminate).
  destruct (cached_token_serves_validity_window P [call; call; call]
              (Scenario.warm 9000000 1000000) "token-0" 9000000
              Hnever eq_refl eq_refl Hne eq_refl Hwithin)
    as (_ & Htok & _).
  exact Htok.
Defined.

(* ====================================================================== *)
(** ** Where requests go *)
(* ====================================================================== *)

(** A [request] that returns a value has sent its request: the latest
    call on the wire is the data call. *)
Lemma request_returned_after_sending (P : Platform) (verb endpoint : string)
    (params : option Params) (body : option Json) (useGlobalUrl : bool)
    (s s' : Sys) (v : Json) :
  request P verb endpoint params body useGlobalUrl s = (Return v, s') ->
  exists (rq : Request) (earlier : list Call),
    wire (world s') = ApiCall rq :: earlier
    /\ href (url rq)
       = (if useGlobalUrl then SophosConfig.globalUrl (config (this s'))
          else Js.interpolate (dataRegionUrl (this s'))) ++ endpoint
    /\ method rq = verb
    /\ body_sent rq
       = match body with
         | Some b => if JsonValue.truthy b then JsonBody b else NoBody
         | None => NoBody
         end
    /\ header_value "X-Tenant-ID" (headers rq)
       = (if useGlobalUrl then None
          else if Js.truthy_string (tenantId (this s')) then tenantId (this s')
               else None).
Proof.
  intros Hreq.
  assert (Hd : exists r, dispatch P verb endpoint params body useGlobalUrl s
                         = (Return (Responded r), s')).
  { revert Hreq. unfold request, handleErrorResponse. unfold_async.
    destruct (dispatch P verb endpoint params body useGlobalUrl s)
      as [[[name message|r]|x] s1]; simpl.
    - destruct (name =? "AbortError")%string; discriminate.
    - destruct (ok r); simpl.
      + destruct (status r =? 204).
        * intros H. inversion H; subst. now exists r.
        * destruct (json r); simpl; [|discriminate].
          intros H. inversion H; subst. now exists r.
      + destruct ((status r =? 401) || (status r =? 403)); simpl; [discriminate|].
        destruct (status r =? 429); discriminate.
    - discriminate. }
  destruct Hd as [r Hd].
  destruct (dispatch_sends P verb endpoint params body useGlobalUrl s s' _ Hd)
    as (token & sa & elapsed & rq & _ & _ & Hw & _ & _ & Hhref & _ & Hm & Hh & Hb).
  exists rq, (wire (world sa)). rewrite Hw. simpl.
  repeat split; auto.
  rewrite Hh. simpl.
  destruct useGlobalUrl; simpl; [reflexivity|].
  destruct (tenantId (this s')) as [t|]; simpl; [|reflexivity].
  destruct (t =? "")%string; reflexivity.
Qed.

(** A client that knows its region and holds a usable token sends the
    request of a [request] whose URL parses, and nothing else. *)
Lemma warm_request_sends (P : Platform) (verb endpoint : string)
    (params : option Params) (body : option Json) (useGlobalUrl : bool)
    (s : Sys) (token : string) :
  resolved (this s) = true ->
  cached_token (this s) (clock (world s)) = Some token ->
  URL_parses P ((if useGlobalUrl then SophosConfig.globalUrl (config (this s))
                 else Js.interpolate (dataRegionUrl (this s))) ++ endpoint) = true ->
  exists rq : Request,
    wire (world (snd (request P verb endpoint params body useGlobalUrl s)))
    = ApiCall rq :: wire (world s)
    /\ href (url rq)
       = (if useGlobalUrl then SophosConfig.globalUrl (config (this s))
          else Js.interpolate (dataRegionUrl (this s))) ++ endpoint
    /\ method rq = verb
    /\ body_sent rq
       = match body with
         | Some b => if JsonValue.truthy b then JsonBody b else NoBody
         | None => NoBody
         end
    /\ header_value "X-Tenant-ID" (headers rq)
       = (if useGlobalUrl then None else tenantId (this s)).
Proof.
  intros Hres Hc Hurl.
  destruct (request_after_dispatch P verb endpoint params body useGlobalUrl s)
    as (Hw & _).
  cbv zeta in Hw. rewrite Hw. clear Hw.
  unfold dispatch. unfold_async.
  rewrite (discoverTenant_resolved P s Hres). simpl.
  rewrite (authenticate_cached P s token Hc). simpl.
  rewrite Hurl. simpl.
  destruct (resource_api P _ _) as [elapsed result]. simpl.
  eexists. split; [reflexivity|]. simpl. rewrite with_params_href. simpl.
  repeat split; auto.
  unfold resolved in Hres. apply andb_prop in Hres as [_ Ht]. rewrite Ht.
  destruct (tenantId (this s)) as [t|]; [|discriminate Ht].
  destruct useGlobalUrl; reflexivity.
Qed.

(** C10. [patch] and [delete] are [request] with the flag left at
    [false], and so always dispatch to the data region,
    [`${this.dataRegionUrl}${endpoint}`]: whatever they send to the
    resource API goes there; when they return a value it was fetched from
    there; and a client that knows its region and holds a usable token
    does send the PATCH or the DELETE there.  [get] and [post] pass their
    flag on: with it set, all of this holds with [config.globalUrl] for
    the data region. *)
Theorem patch_delete_target_data_region :
  forall (P : Platform) (endpoint : string) (body : option Json)
         (params : option Params) (s : Sys),
    let data_region (s' : Sys) := Js.interpolate (dataRegionUrl (this s')) in
    let global_host (s' : Sys) := SophosConfig.globalUrl (config (this s')) in
    let sent_to (verb : string) (base : Sys -> string) (s' : Sys) : Prop :=
      api_requests (wire (world s')) = api_requests (wire (world s))
      \/ exists rq,
           api_requests (wire (world s')) = rq :: api_requests (wire (world s))
           /\ href (url rq) = base s' ++ endpoint
           /\ method rq = verb in
    let fetched_from (verb : string) (base : Sys -> string) (s' : Sys) : Prop :=
      exists rq earlier,
        wire (world s') = ApiCall rq :: earlier
        /\ href (url rq) = base s' ++ endpoint
        /\ method rq = verb in
    let sends (verb : string) (base : Sys -> string) (s' : Sys) : Prop :=
      exists rq,
        wire (world s') = ApiCall rq :: wire (world s)
        /\ href (url rq) = base s ++ endpoint
        /\ method rq = verb in
    (patch P endpoint body params = request P "PATCH" endpoint params body false
     /\ delete P endpoint params = request P "DELETE" endpoint params None false)
    /\ (sent_to "PATCH" data_region (snd (patch P endpoint body params s))
        /\ sent_to "DELETE" data_region (snd (delete P endpoint params s))
        /\ (forall useGlobalUrl : bool,
              sent_to "GET" (if useGlobalUrl then global_host else data_region)
                (snd (get P endpoint params useGlobalUrl s)))
        /\ (forall useGlobalUrl : bool,
              sent_to "POST" (if useGlobalUrl then global_host else data_region)
                (snd (post P endpoint body params useGlobalUrl s))))
    /\ ((forall v s', patch P endpoint body params s = (Return v, s') ->
                      fetched_from "PATCH" data_region s')
        /\ (forall v s', delete P endpoint params s = (Return v, s') ->
                         fetched_from "DELETE" data_region s')
        /\ (forall (useGlobalUrl : bool) v s',
              get P endpoint params useGlobalUrl s = (Return v, s') ->
              fetched_from "GET" (if useGlobalUrl then global_host else data_region) s')
        /\ (forall (useGlobalUrl : bool) v s',
              post P endpoint body params useGlobalUrl s = (Return v, s') ->
              fetched_from "POST" (if useGlobalUrl then global_host else data_region) s'))
    /\ (forall token : string,
          resolved (this s) = true ->
          cached_token (this s) (clock (world s)) = Some token ->
          (URL_parses P (data_region s ++ endpoint) = true ->
           sends "PATCH" data_region (snd (patch P endpoint body params s))
           /\ sends "DELETE" data_region (snd (delete P endpoint params s))
           /\ sends "GET" data_region (snd (get P endpoint params false s))
           /\ sends "POST" data_region (snd (post P endpoint body params false s)))
          /\ (URL_parses P (global_host s ++ endpoint) = true ->
              sends "GET" global_host (snd (get P endpoint params true s))
              /\ sends "POST" global_host (snd (post P endpoint body params true s)))).
Proof.
  intros P endpoint body params s data_region global_host sent_to fetched_from sends.
  assert (Hsafe : forall verb b (g : bool),
             sent_to verb (if g then global_host else data_region)
               (snd (request P verb endpoint params b g s))).
  { intros verb b g.
    pose proof (dispatch_frame P verb endpoint params b g s) as (_ & _ & _ & _ & Hapi).
    pose proof (request_after_dispatch P verb endpoint params b g s)
      as (Hw & Hc & Hd & _).
    cbv zeta in *. unfold sent_to, data_region, global_host.
    rewrite Hw. destruct Hapi as [Hsame | (rq & Hrq & Hhref & Hm)].
    - now left.
    - right. exists rq. repeat split; auto.
      rewrite Hhref. destruct g; [now rewrite Hc | now rewrite Hd]. }
  assert (Hret : forall verb b (g : bool) v s',
             request P verb endpoint params b g s = (Return v, s') ->
             fetched_from verb (if g then global_host else data_region) s').
  { intros verb b g v s' Hreq.
    destruct (request_returned_after_sending P verb endpoint params b g s s' v Hreq)
      as (rq & earlier & Hw & Hhref & Hm & _).
    exists rq, earlier. unfold data_region, global_host.
    repeat split; auto. rewrite Hhref. now destruct g. }
  assert (Hlive : forall verb b (g : bool) token,
             resolved (this s) = true ->
             cached_token (this s) (clock (world s)) = Some token ->
             URL_parses P ((if g then global_host s else data_region s) ++ endpoint)
             = true ->
             sends verb (if g then global_host else data_region)
               (snd (request P verb endpoint params b g s))).
  { intros verb b g token Hres Hc Hurl.
    destruct (warm_request_sends P verb endpoint params b g s token Hres Hc)
      as (rq & Hw & Hhref & Hm & _).
    - unfold data_region, global_host in Hurl. now destruct g.
    - exists rq. unfold data_region, global_host.
      repeat split; auto. rewrite Hhref. now destruct g. }
  split; [split; reflexivity|]. split; [|split].
  - repeat split.
    + exact (Hsafe "PATCH" body false).
    + exact (Hsafe "DELETE" None false).
    + intros g. exact (Hsafe "GET" None g).
    + intros g. exact (Hsafe "POST" body g).
  - repeat split.
    + intros v s'. exact (Hret "PATCH" body false v s').
    + intros v s'. exact (Hret "DELETE" None false v s').
    + intros g v s'. exact (Hret "GET" None g v s').
    + intros g v s'. exact (Hret "POST" body g v s').
  - intros token Hres Hc. split.
    + intros Hurl. repeat split.
      * exact (Hlive "PATCH" body false token Hres Hc Hurl).
      * exact (Hlive "DELETE" None false token Hres Hc Hurl).
      * exact (Hlive "GET" None false token Hres Hc Hurl).
      * exact (Hlive "POST" body false token Hres Hc Hurl).
    + intros Hurl. split.
      * exact (Hlive "GET" None true token Hres Hc Hurl).
      * exact (Hlive "POST" body true token Hres Hc Hurl).
Qed.

(** C10 on a run, for a client configured with its region and holding a
    token: a PATCH and a DELETE go to the configured region, a GET with
    the flag set goes to the global host. *)
Lemma patch_delete_target_data_region_witness :
  let P := Scenario.healthy
             (Scenario.api_answer 200 "OK" Scenario.no_header (Some (JObject []))) in
  let s := Scenario.warm 9000000 1000000 in
  (exists rq,
      wire (world (snd (patch P "/xdr/v1/threat-cases/c-1"
                          (Some (JObject [("status", JString "resolved")])) None s)))
      = [ApiCall rq]
      /\ href (url rq) = "https://api-us03.central.sophos.com/xdr/v1/threat-cases/c-1"
      /\ method rq = "PATCH")
  /\ (exists rq,
         wire (world (snd (delete P "/xdr/v1/threat-cases/c-1" None s))) = [ApiCall rq]
         /\ href (url rq) = "https://api-us03.central.sophos.com/xdr/v1/threat-cases/c-1"
         /\ method rq = "DELETE")
  /\ (exists rq,
         wire (world (snd (get P "/xdr/v1/threat-cases/c-1" None true s))) = [ApiCall rq]
         /\ href (url rq) = "https://api.central.sophos.com/xdr/v1/threat-cases/c-1"
         /\ method rq = "GET").
Proof.
  intros P s.
  destruct (patch_delete_target_data_region P "/xdr/v1/threat-cases/c-1"
              (Some (JObject [("status", JString "resolved")])) None s)
    as (_ & _ & _ & Hlive).
  destruct (Hlive "token-0" eq_refl eq_refl) as [Hregion Hglobal].
  destruct (Hregion eq_refl) as (Hpatch & Hdelete & _ & _).
  destruct (Hglobal eq_refl) as (Hget & _).
  split; [exact Hpatch|]. split; [exact Hdelete|exact Hget].
Defined.

(** X15. Of the entity methods only [getTenants] and [getTenant] address the
    global host, and without the tenant header; all the others address the
    data region.  The methods that read send a GET without body; those
    that act send a JSON body, with PATCH for [updateCaseStatus] and with
    POST for the others.  None sends more
    than one request to the resource API; each has sent its request when
    it returns a value; and each does send it, and nothing else, for a
    client that knows its region and holds a usable token (every URL being
    accepted by [new URL]). *)
Theorem entity_methods_routing :
  forall (P : Platform) (call : EntityCall) (s : Sys),
    let host (s' : Sys) :=
      if is_tenant_call call then SophosConfig.globalUrl (config (this s'))
      else Js.interpolate (dataRegionUrl (this s')) in
    let shaped (rq : Request) : Prop :=
      (is_tenant_call call = true -> header_value "X-Tenant-ID" (headers rq) = None)
      /\ (is_action call = false -> method rq = "GET" /\ body_sent rq = NoBody)
      /\ (is_action call = true ->
          method rq = match call with
                      | UpdateCaseStatus _ _ _ => "PATCH"
                      | _ => "POST"
                      end
          /\ exists value, body_sent rq = JsonBody value) in
    (let s' := snd (perform P call s) in
     api_requests (wire (world s')) = api_requests (wire (world s))
     \/ exists (rq : Request) (path : string),
          api_requests (wire (world s')) = rq :: api_requests (wire (world s))
          /\ href (url rq) = host s' ++ path
          /\ shaped rq)
    /\ (forall (v : Json) (s' : Sys),
          perform P call s = (Return v, s') ->
          exists (rq : Request) (earlier : list Call) (path : string),
            wire (world s') = ApiCall rq :: earlier
            /\ href (url rq) = host s' ++ path
            /\ shaped rq)
    /\ (forall token : string,
          resolved (this s) = true ->
          cached_token (this s) (clock (world s)) = Some token ->
          (forall text, URL_parses P text = true) ->
          exists (rq : Request) (path : string),
            wire (world (snd (perform P call s))) = ApiCall rq :: wire (world s)
            /\ href (url rq) = host s ++ path
            /\ shaped rq).
Proof.
  intros P call s host shaped. unfold host, shaped. clear host shaped.
  destruct call; cbn [perform is_tenant_call is_action];
    unfold getEndpoints, getEndpoint, isolateEndpoint, unisolateEndpoint,
      scanEndpoint, getEndpointSoftware, getAlerts, getAlert, performAlertAction,
      getDetections, getDetection, getThreatCases, getCaseDetections,
      updateCaseStatus, getEvents, getEvent, getAuditLogs, getPolicies, getPolicy,
      getExclusions, getTenants, getTenant, runLiveDiscoverQuery, getSavedQueries,
      getQueryResults, get, post, patch;
    (split;
     [ match goal with
       | |- context [request P ?v ?e ?p ?b ?g s] =>
           destruct (request_api_request P v e p b g s)
             as [Hsame | (rq & Hrq & Hhref & Hm & Hb & Hglobal & Hregion)];
           [left; exact Hsame | right; exists rq, e]
       end;
       (split; [exact Hrq|]); (split; [exact Hhref|]);
        (split; [intros Ht; try discriminate Ht; apply Hglobal; reflexivity|]);
        (split; intros Ha; try discriminate Ha);
        (split; [exact Hm|]);
        solve [exact Hb | eexists; exact Hb]
     | split;
       [ intros v s' Hret;
         match type of Hret with
         | request P ?vb ?e ?p ?b ?g s = _ =>
             destruct (request_returned_after_sending P vb e p b g s s' v Hret)
               as (rq & earlier & Hw & Hhref & Hm & Hb & Hh);
             exists rq, earlier, e
         end;
         (split; [exact Hw|]); (split; [exact Hhref|]);
        (split; [intros Ht; try discriminate Ht; exact Hh|]);
        (split; intros Ha; try discriminate Ha);
        (split; [exact Hm|]);
        solve [exact Hb | eexists; exact Hb]
       | intros token Hres Hc Hurl;
         match goal with
         | |- context [request P ?vb ?e ?p ?b ?g s] =>
             destruct (warm_request_sends P vb e p b g s token Hres Hc (Hurl _))
               as (rq & Hw & Hhref & Hm & Hb & Hh);
             exists rq, e
         end;
         (split; [exact Hw|]); (split; [exact Hhref|]);
        (split; [intros Ht; try discriminate Ht; exact Hh|]);
        (split; intros Ha; try discriminate Ha);
        (split; [exact Hm|]);
        solve [exact Hb | eexists; exact Hb] ] ]).
Qed.

(** X15 on a run, for a client configured with its region and holding a
    token: [getTenants] sends a GET to the global host without the tenant
    header, [isolateEndpoint] a POST to the region with its JSON body. *)
Lemma entity_methods_routing_witness :
  let P := Scenario.healthy
             (Scenario.api_answer 200 "OK" Scenario.no_header (Some (JObject []))) in
  let s := Scenario.warm 9000000 1000000 in
  (exists rq path,
      wire (world (snd (perform P (GetTenants None) s))) = [ApiCall rq]
      /\ href (url rq) = "https://api.central.sophos.com" ++ path
      /\ method rq = "GET"
      /\ header_value "X-Tenant-ID" (headers rq) = None)
  /\ (exists rq path,
         wire (world (snd (perform P (IsolateEndpoint "e-1" None) s))) = [ApiCall rq]
         /\ href (url rq) = "https://api-us03.central.sophos.com" ++ path
         /\ method rq = "POST"
         /\ exists value, body_sent rq = JsonBody value).
Proof.
  intros P s.
  assert (Hurl : forall text, URL_parses P text = true) by reflexivity.
  split.
  - destruct (entity_methods_routing P (GetTenants None) s) as (_ & _ & Hlive).
    destruct (Hlive "token-0" eq_refl eq_refl Hurl)
      as (rq & path & Hw & Hhref & Htenant & Hread & _).
    exists rq, path. destruct (Hread eq_refl) as [Hm _].
    repeat split; auto.
  - destruct (entity_methods_routing P (IsolateEndpoint "e-1" None) s)
      as (_ & _ & Hlive).
    destruct (Hlive "token-0" eq_refl eq_refl Hurl)
      as (rq & path & Hw & Hhref & _ & _ & Hact).
    exists rq, path. destruct (Hact eq_refl) as [Hm Hb].
    repeat split; auto.
Defined.
